(** * NYC taxi demand predictor: training-to-serving lifecycle

    A shallow embedding of [urban_mobility_forecaster/config.py],
    [urban_mobility_forecaster/api.py] and [urban_mobility_forecaster/train.py].

    - Python floats are IEEE binary64 values, [spec_float] of the standard
      library, compared with [SFltb]/[SFleb]/[SFeqb] and computed on with
      [SFmul], [SFsqrt] and the like (so NaN, signed zero and rounding behave
      as in Python).
    - Module globals ([_model], [_results]), the files under [models/] and the
      sequence of file-system calls are one explicit [State], threaded through
      a state-and-exception monad [Py].
    - Objects coming from third-party libraries (the unpickled regressor,
      sklearn's metrics, xgboost's [fit]) are records of functions or Section
      variables: their results are arbitrary, and they may raise. *)

From Stdlib Require Import ZArith String Ascii List SpecFloat.
From stdpp Require Import base option gmap strings list fin_maps.

Set Warnings "-register-all".

Local Open Scope Z_scope.
Local Open Scope string_scope.

(** ** Python values *)

(** [float]: a binary64 number. *)
Definition float : Set := spec_float.

Definition prec : Z := 53.
Definition emax : Z := 1024.

(** [float(z)] for a Python int [z] (round to nearest even). *)
Definition float_of_int (z : Z) : float := binary_normalize prec emax z 0 false.

(** The literal [0.84] and friends are written by mantissa and exponent. *)
Definition f_zero : float := S754_zero false.
Definition f_5 : float := Eval cbv in float_of_int 5.
Definition f_20 : float := Eval cbv in float_of_int 20.

(** A number as Python holds it: an [int] or a [float]. *)
Inductive PyNum :=
  | PyInt (z : Z)
  | PyFloat (f : float).

(** [float(v)]: also what [np.array] stores for [v] in a float64 array and
    what a pydantic [float] field keeps of [v]. *)
Definition py_float (v : PyNum) : float :=
  match v with
  | PyInt z => float_of_int z
  | PyFloat f => f
  end.

(** [a < b]; an int against a float is compared as a float (the ints of this
    program, 0, 5 and 20, convert exactly). *)
Definition py_lt (a b : PyNum) : bool :=
  match a, b with
  | PyInt x, PyInt y => Z.ltb x y
  | _, _ => SFltb (py_float a) (py_float b)
  end.

(** [max(a, b)]: the first argument unless the second is greater. *)
Definition py_max (a b : PyNum) : PyNum := if py_lt a b then b else a.

(** The value [json.load] returns; an object keeps its keys in order.
    [JNull] is Python's [None]. *)
Inductive Json :=
  | JNull
  | JBool (b : bool)
  | JInt (z : Z)
  | JFloat (f : float)
  | JStr (s : string)
  | JList (l : list Json)
  | JObj (kvs : list (string * Json)).

(** Exceptions. [HTTPException] carries its status code and detail; a detail
    built from another exception keeps that exception ([str(e)]). *)
Inductive Exn :=
  | FileNotFoundError (msg : string)
  | UnpicklingError
  | EOFError
  | JSONDecodeError
  | UnicodeDecodeError
  | AttributeError (msg : string)
  | IndexError
  | ValueError (msg : string)
  | ValidationError (field : string)
  | LibraryError (msg : string)
  | HTTPException (status_code : Z) (detail : Detail)
with Detail :=
  | Text (s : string)
  | StrOf (e : Exn)
  | TextStrOf (s : string) (e : Exn).

Inductive result (A : Type) :=
  | Ok (a : A)
  | Raise (e : Exn).
Arguments Ok {A} a.
Arguments Raise {A} e.

Definition Matrix := list (list float).
Definition Vector := list float.

(** The unpickled regressor: the two attributes the code uses, either of
    which may raise. *)
Module XGBRegressor.
Record t := {
  predict : Matrix -> result Vector;
  feature_importances_ : result Vector;
}.
End XGBRegressor.
Definition Model : Type := XGBRegressor.t.

(** The entry of a dict under key [k]. *)
Fixpoint assoc {A} (k : string) (kvs : list (string * A)) : option A :=
  match kvs with
  | [] => None
  | (k', v) :: rest => if String.eqb k k' then Some v else assoc k rest
  end.

(** ** Files and the interpreter state *)

(** A file, by what deserialising it gives. A pickle holds a regressor (any
    object with the two attributes, which may raise) or [None]; [JsonOf j] is
    a JSON document; [PlainText] is text that is neither; [EmptyFile] has no
    bytes; [NotUtf8] and [Garbage] are bytes that are no pickle, the former
    not even decodable as text. *)
Inductive FileContent :=
  | PickleOf (m : Model)
  | PickleOfNone
  | JsonOf (j : Json)
  | PlainText (s : string)
  | EmptyFile
  | NotUtf8
  | Garbage.

Inductive Event :=
  | EvExists (p : string)
  | EvRead (p : string)
  | EvMkdir (p : string)
  | EvWrite (p : string) (c : FileContent).

Record State := {
  _model : option Model;            (* api.py : _model *)
  _results : Json;                  (* api.py : _results, JNull is None *)
  dirs : gset string;               (* directories that exist *)
  files : gmap string FileContent;  (* files that exist *)
  trace : list Event;               (* file-system calls so far, oldest first *)
}.

Definition set_model (m : option Model) (s : State) : State :=
  {| _model := m; _results := _results s; dirs := dirs s; files := files s;
     trace := trace s |}.
Definition set_results (j : Json) (s : State) : State :=
  {| _model := _model s; _results := j; dirs := dirs s; files := files s;
     trace := trace s |}.
Definition set_files (fs : gmap string FileContent) (s : State) : State :=
  {| _model := _model s; _results := _results s; dirs := dirs s; files := fs;
     trace := trace s |}.
Definition set_dirs (d : gset string) (s : State) : State :=
  {| _model := _model s; _results := _results s; dirs := d; files := files s;
     trace := trace s |}.
Definition log_event (ev : Event) (s : State) : State :=
  {| _model := _model s; _results := _results s; dirs := dirs s; files := files s;
     trace := trace s ++ [ev] |}.

(** ** The monad of statements: state passing, with exceptions *)

Definition Py (A : Type) : Type := State -> result A * State.

Definition ret {A} (a : A) : Py A := fun s => (Ok a, s).
Definition raise {A} (e : Exn) : Py A := fun s => (Raise e, s).
Definition bind {A B} (c : Py A) (k : A -> Py B) : Py B :=
  fun s => match c s with
           | (Ok a, s') => k a s'
           | (Raise e, s') => (Raise e, s')
           end.
(** [try: c except Exception as e: h e] *)
Definition try_except {A} (c : Py A) (h : Exn -> Py A) : Py A :=
  fun s => match c s with
           | (Ok a, s') => (Ok a, s')
           | (Raise e, s') => h e s'
           end.
Definition lift {A} (r : result A) : Py A := fun s => (r, s).
Definition get_state : Py State := fun s => (Ok s, s).
Definition modify (f : State -> State) : Py unit := fun s => (Ok tt, f s).

Declare Scope py_scope.
Delimit Scope py_scope with py.
Notation "'do' x <- c ; k" := (bind c (fun x => k))
  (at level 10, x name, c at level 100, k at level 200) : py_scope.
Notation "'do' ' p <- c ; k" := (bind c (fun x => match x with p => k end))
  (at level 10, p pattern, c at level 100, k at level 200) : py_scope.
Notation "'run' c ; k" := (bind c (fun _ => k))
  (at level 10, c at level 100, k at level 200) : py_scope.

Definition rbind {A B} (r : result A) (k : A -> result B) : result B :=
  match r with
  | Ok a => k a
  | Raise e => Raise e
  end.

(** ** File-system primitives *)

(** [Path.exists()] *)
Definition path_exists (p : string) : Py bool :=
  fun s => (Ok (bool_decide (is_Some (files s !! p))), log_event (EvExists p) s).

(** [open(p, 'rb')] or [open(p, 'r')], then reading it whole. *)
Definition read_file (p : string) : Py FileContent :=
  fun s => match files s !! p with
           | Some c => (Ok c, log_event (EvRead p) s)
           | None => (Raise (FileNotFoundError p), log_event (EvRead p) s)
           end.

(** [pickle.load(f)]: the pickled object, which may be [None]; an empty
    file ends before the first opcode. *)
Definition pickle_load (c : FileContent) : result (option Model) :=
  match c with
  | PickleOf m => Ok (Some m)
  | PickleOfNone => Ok None
  | EmptyFile => Raise EOFError
  | JsonOf _ | PlainText _ | NotUtf8 | Garbage => Raise UnpicklingError
  end.

(** [json.load(f)] on a file opened in text mode: bytes that are not text
    (a binary pickle among them) fail in the decoder, before parsing. *)
Definition json_load (c : FileContent) : result Json :=
  match c with
  | JsonOf j => Ok j
  | PickleOf _ | PickleOfNone | NotUtf8 => Raise UnicodeDecodeError
  | PlainText _ | EmptyFile | Garbage => Raise JSONDecodeError
  end.

(** The directory part of a path: everything before the last ['/']. *)
Fixpoint dirname_aux (acc cur : string) (seen : bool) (p : string) : string :=
  match p with
  | EmptyString => if seen then acc else EmptyString
  | String c rest =>
      if Ascii.eqb c "/"%char
      then dirname_aux (if seen then acc ++ "/" ++ cur else cur) EmptyString true rest
      else dirname_aux acc (cur ++ String c EmptyString) seen rest
  end.
Definition dirname (p : string) : string := dirname_aux EmptyString EmptyString false p.

(** [Path.mkdir(exist_ok=True)] *)
Definition mkdir_exist_ok (d : string) : Py unit :=
  fun s => (Ok tt, log_event (EvMkdir d) (set_dirs ({[d]} ∪ dirs s) s)).

(** [open(p, 'w')] (or ['wb']), writing [c], closing: the file holds exactly
    [c] afterwards. Opening fails when the directory of [p] does not exist;
    the project root (the empty directory name) always does. *)
Definition write_file (p : string) (c : FileContent) : Py unit :=
  fun s =>
    if bool_decide (dirname p = EmptyString ∨ dirname p ∈ dirs s)
    then (Ok tt, log_event (EvWrite p c) (set_files (<[p := c]> (files s)) s))
    else (Raise (FileNotFoundError p), s).

(** ** config.py *)

Module Config.

(** Paths are written relative to [PROJ_ROOT]. (Importing config.py also
    calls [MODELS_DIR.mkdir(exist_ok=True)]; the states below may or may not
    have the directory.) *)
Definition MODELS_DIR : string := "models".

Definition FEATURE_COLUMNS : list string :=
  [ "hour_sin"; "hour_cos";
    "dow_sin"; "dow_cos";
    "month_sin"; "month_cos";
    "lag_1h"; "lag_24h"; "lag_168h";
    "diff_24h";
    "rolling_7d_mean"; "rolling_7d_std";
    "rolling_14d_mean"; "rolling_7d_cv";
    "zone_mean_demand"; "zone_rank"; "zone_is_top50" ].

Definition MODEL_FILE : string := MODELS_DIR ++ "/xgboost_model.pkl".
Definition FEATURE_LIST_FILE : string := MODELS_DIR ++ "/feature_list.txt".
Definition RESULTS_FILE : string := MODELS_DIR ++ "/results.json".

(** 0.1 and 0.8 as binary64. *)
Definition f_0_1 : float := S754_finite false 7205759403792794 (-56).
Definition f_0_8 : float := S754_finite false 7205759403792794 (-53).

Definition XGBOOST_PARAMS : Json :=
  JObj [ ("n_estimators", JInt 500);
         ("max_depth", JInt 6);
         ("learning_rate", JFloat f_0_1);
         ("subsample", JFloat f_0_8);
         ("colsample_bytree", JFloat f_0_8);
         ("random_state", JInt 42);
         ("n_jobs", JInt (-1)) ].

Definition VERBOSE_EVAL : Z := 50.

End Config.
Export Config.

(** ** api.py *)

Module Api.

Local Open Scope py_scope.

(** [load_model()]: each global is filled only while it is [None]. *)
Definition load_model : Py (option Model * Json) :=
  do s <- get_state;
  run (match _model s with
       | None =>
           do present <- path_exists MODEL_FILE;
           if negb present
           then raise (FileNotFoundError ("Model file not found: " ++ MODEL_FILE))
           else
             do c <- read_file MODEL_FILE;
             do o <- lift (pickle_load c);
             modify (set_model o)
       | Some _ => ret tt
       end);
  do s <- get_state;
  run (match _results s with
       | JNull =>
           do present <- path_exists RESULTS_FILE;
           if present
           then
             do c <- read_file RESULTS_FILE;
             do j <- lift (json_load c);
             modify (set_results j)
           else ret tt
       | _ => ret tt
       end);
  do s <- get_state;
  ret (_model s, _results s).

(** [class PredictionRequest(BaseModel)]: the fields in declaration order. *)
Record PredictionRequest := {
  hour_sin : float;
  hour_cos : float;
  dow_sin : float;
  dow_cos : float;
  month_sin : float;
  month_cos : float;
  lag_1h : float;
  lag_24h : float;
  lag_168h : float;
  diff_24h : float;
  rolling_7d_mean : float;
  rolling_7d_std : float;
  rolling_14d_mean : float;
  rolling_7d_cv : float;
  zone_mean_demand : float;
  zone_rank : float;
  zone_is_top50 : Z;
}.

(** [getattr(request, name)] for the name of a declared field; [None] stands
    for a name that is not one (methods and other attributes of the class
    are not modelled). *)
Definition getattr (request : PredictionRequest) (name : string) : option PyNum :=
  if String.eqb name "hour_sin" then Some (PyFloat (hour_sin request))
  else if String.eqb name "hour_cos" then Some (PyFloat (hour_cos request))
  else if String.eqb name "dow_sin" then Some (PyFloat (dow_sin request))
  else if String.eqb name "dow_cos" then Some (PyFloat (dow_cos request))
  else if String.eqb name "month_sin" then Some (PyFloat (month_sin request))
  else if String.eqb name "month_cos" then Some (PyFloat (month_cos request))
  else if String.eqb name "lag_1h" then Some (PyFloat (lag_1h request))
  else if String.eqb name "lag_24h" then Some (PyFloat (lag_24h request))
  else if String.eqb name "lag_168h" then Some (PyFloat (lag_168h request))
  else if String.eqb name "diff_24h" then Some (PyFloat (diff_24h request))
  else if String.eqb name "rolling_7d_mean" then Some (PyFloat (rolling_7d_mean request))
  else if String.eqb name "rolling_7d_std" then Some (PyFloat (rolling_7d_std request))
  else if String.eqb name "rolling_14d_mean" then Some (PyFloat (rolling_14d_mean request))
  else if String.eqb name "rolling_7d_cv" then Some (PyFloat (rolling_7d_cv request))
  else if String.eqb name "zone_mean_demand" then Some (PyFloat (zone_mean_demand request))
  else if String.eqb name "zone_rank" then Some (PyFloat (zone_rank request))
  else if String.eqb name "zone_is_top50" then Some (PyInt (zone_is_top50 request))
  else None.

Record PredictionResponse := {
  predicted_pickups : float;
  confidence : string;
  model_version : string;
}.

Record HealthResponse := {
  status : string;
  model_loaded : bool;
  n_features : Z;
  test_mae : option float;
}.

(** [np.array(rows)] on rows of numbers: a float64 matrix (for ints that
    fit a machine word; the flag [zone_is_top50] is 0 or 1). *)
Definition np_array (rows : list (list PyNum)) : Matrix := map (map py_float) rows.

(** Truth value of a JSON value, as [if results] tests it. *)
Definition truthy (j : Json) : bool :=
  match j with
  | JNull => false
  | JBool b => b
  | JInt z => negb (Z.eqb z 0)
  | JFloat f => negb (SFeqb f f_zero)
  | JStr s => negb (String.eqb s "")
  | JList l => match l with [] => false | _ => true end
  | JObj kvs => match kvs with [] => false | _ => true end
  end.

(** [d.get(k, default)]; only a dict has the method. *)
Definition dict_get (d : Json) (k : string) (default : Json) : result Json :=
  match d with
  | JObj kvs => Ok (match assoc k kvs with Some v => v | None => default end)
  | _ => Raise (AttributeError "get")
  end.

(** The local [features] of [predict]: one row, written out field by field. *)
Definition features (request : PredictionRequest) : Matrix :=
  np_array [[
    PyFloat (hour_sin request);
    PyFloat (hour_cos request);
    PyFloat (dow_sin request);
    PyFloat (dow_cos request);
    PyFloat (month_sin request);
    PyFloat (month_cos request);
    PyFloat (lag_1h request);
    PyFloat (lag_24h request);
    PyFloat (lag_168h request);
    PyFloat (diff_24h request);
    PyFloat (rolling_7d_mean request);
    PyFloat (rolling_7d_std request);
    PyFloat (rolling_14d_mean request);
    PyFloat (rolling_7d_cv request);
    PyFloat (zone_mean_demand request);
    PyFloat (zone_rank request);
    PyInt (zone_is_top50 request) ]].

Section Handlers.

(** pydantic's validation of the value given for the field declared
    [test_mae: float = None] of [HealthResponse]: the float it keeps, [None],
    or a validation error. *)
Variable validate_test_mae : Json -> result (option float).

(** [@app.on_event("startup")]: a failure is logged and raised again. *)
Definition startup_event : Py unit :=
  try_except
    (run load_model;
     ret tt)
    (fun e => raise e).

(** [GET /health] *)
Definition health_check : Py HealthResponse :=
  try_except
    (do '(model, results) <- load_model;
     do mae <- lift (if truthy results
                     then rbind (dict_get results "metrics" (JObj [])) (fun metrics =>
                          rbind (dict_get metrics "test" (JObj [])) (fun test =>
                          dict_get test "mae" JNull))
                     else Ok JNull);
     do mae' <- lift (validate_test_mae mae);
     ret {| status := "healthy";
            model_loaded := match model with Some _ => true | None => false end;
            n_features := Z.of_nat (length FEATURE_COLUMNS);
            test_mae := mae' |})
    (fun e => raise (HTTPException 500 (Text "Model not available"))).

(** [POST /predict] *)
Definition predict (request : PredictionRequest) : Py PredictionResponse :=
  try_except
    (do '(model, results) <- load_model;
     do out <- lift (match model with
                     | Some m => XGBRegressor.predict m (features request)
                     | None => Raise (AttributeError "predict")
                     end);
     do prediction <- lift (match out with
                            | x :: _ => Ok x
                            | [] => Raise IndexError
                            end);
     let confidence :=
       if py_lt (PyFloat prediction) (PyInt 5) then "low"
       else if py_lt (PyFloat prediction) (PyInt 20) then "medium"
       else "high" in
     ret {| predicted_pickups := py_float (py_max (PyInt 0) (PyFloat prediction));
            confidence := confidence;
            model_version := "xgboost-v1.0-test-mae-0.84" |})
    (fun e => raise (HTTPException 500 (TextStrOf "Prediction error: " e))).

(** [GET /info] *)
Definition model_info : Py Json :=
  try_except
    (do '(model, results) <- load_model;
     match results with
     | JNull => raise (HTTPException 500 (Text "Results metadata not available"))
     | _ =>
         do model_type <- lift (dict_get results "model_type" JNull);
         do n <- lift (dict_get results "n_features" JNull);
         do features <- lift (dict_get results "features" JNull);
         do hyperparameters <- lift (dict_get results "hyperparameters" JNull);
         do metrics <- lift (dict_get results "metrics" JNull);
         ret (JObj [ ("model_type", model_type);
                     ("n_features", n);
                     ("features", features);
                     ("hyperparameters", hyperparameters);
                     ("metrics", metrics) ])
     end)
    (fun e => raise (HTTPException 500 (StrOf e))).

End Handlers.

End Api.

(** ** train.py *)

Module Train.

Notation "'let!' x ':=' r 'in' k" := (rbind r (fun x => k))
  (at level 10, x name, r at level 100, k at level 200, only parsing).

(** The dict [evaluate_model] returns: split name to metric name to value,
    both in insertion order. *)
Definition Results (Num : Type) : Type := list (string * list (string * Num)).

Section Evaluate.

(** What sklearn.metrics computes, over the numbers [Num] it computes in;
    [pow_half x] is [x ** 0.5]. *)
Variable Num : Type.
Variables mean_absolute_error mean_squared_error r2_score :
  Vector -> Vector -> result Num.
Variable pow_half : Num -> Num.

(** [pd.DataFrame({'feature': ..., 'importance': ...})] needs columns of one
    length; sorting and logging the report cannot fail after that. (Log lines
    are not part of the state and are left out throughout.) *)
Definition importance_report (feature_cols : list string) (importance : Vector)
  : result unit :=
  if Nat.eqb (length feature_cols) (length importance)
  then Ok tt
  else Raise (ValueError "All arrays must be of the same length").

Definition evaluate_model (model : Model)
    (X_train : Matrix) (y_train : Vector)
    (X_val : Matrix) (y_val : Vector)
    (X_test : Matrix) (y_test : Vector)
    (feature_cols : list string) : result (Results Num) :=
  let! y_train_pred := XGBRegressor.predict model X_train in
  let! y_val_pred := XGBRegressor.predict model X_val in
  let! y_test_pred := XGBRegressor.predict model X_test in
  let! train_mae := mean_absolute_error y_train y_train_pred in
  let! train_mse := mean_squared_error y_train y_train_pred in
  let! train_r2 := r2_score y_train y_train_pred in
  let! val_mae := mean_absolute_error y_val y_val_pred in
  let! val_mse := mean_squared_error y_val y_val_pred in
  let! val_r2 := r2_score y_val y_val_pred in
  let! test_mae := mean_absolute_error y_test y_test_pred in
  let! test_mse := mean_squared_error y_test y_test_pred in
  let! test_r2 := r2_score y_test y_test_pred in
  let results :=
    [ ("train", [ ("mae", train_mae);
                  ("rmse", pow_half train_mse);
                  ("r2", train_r2) ]);
      ("val", [ ("mae", val_mae);
                ("rmse", pow_half val_mse);
                ("r2", val_r2) ]);
      ("test", [ ("mae", test_mae);
                 ("rmse", pow_half test_mse);
                 ("r2", test_r2) ]) ] in
  let! importance := XGBRegressor.feature_importances_ model in
  let! _ := importance_report feature_cols importance in
  Ok results.

End Evaluate.

Local Open Scope py_scope.

Definition newline : string := String (ascii_of_nat 10) EmptyString.

(** [save_model]: the directory, then the three files. *)
Definition save_model (model : Model) (feature_cols : list string) (results : Json)
    (model_path feature_path results_path : string) : Py unit :=
  run mkdir_exist_ok MODELS_DIR;
  run write_file model_path (PickleOf model);
  run write_file feature_path (PlainText (String.concat newline feature_cols));
  let results_with_meta :=
    JObj [ ("model_type", JStr "XGBoost");
           ("n_features", JInt (Z.of_nat (length feature_cols)));
           ("features", JList (map JStr feature_cols));
           ("hyperparameters", XGBOOST_PARAMS);
           ("metrics", results) ] in
  write_file results_path (JsonOf results_with_meta).

(** The metrics dict as the JSON value [json.dump] writes. *)
Definition results_json (results : Results float) : Json :=
  JObj (map (fun '(split, metrics) =>
               (split, JObj (map (fun '(name, v) => (name, JFloat v)) metrics)))
            results).

Section Pipeline.

(** Collaborators outside the three files embedded here: the feature module
    ([load_features], [prepare_features]) reads the CSV splits and touches
    neither the globals of api.py nor the files under [models/]; xgboost's
    [XGBRegressor], built from the parameters and then fitted; sklearn's
    metrics on floats; and [x ** y] on floats. Each may raise. *)
Variable DataFrame : Type.
Variable load_features : result (DataFrame * DataFrame * DataFrame).
Variable prepare_features :
  DataFrame -> DataFrame -> DataFrame ->
  result (Matrix * Vector * Matrix * Vector * Matrix * Vector).
Variable xgb_fit :
  Json -> Matrix -> Vector -> list (Matrix * Vector) -> Z -> result Model.
Variables mean_absolute_error mean_squared_error r2_score :
  Vector -> Vector -> result float.
Variable float_pow : float -> float -> float.

Definition f_0_5 : float := S754_finite false 4503599627370496 (-53).

Definition train_model (X_train : Matrix) (y_train : Vector)
    (X_val : Matrix) (y_val : Vector) (params : Json) : result Model :=
  xgb_fit params X_train y_train [(X_train, y_train); (X_val, y_val)] VERBOSE_EVAL.

Definition main : Py unit :=
  try_except
    (do '(train_df, val_df, test_df) <- lift load_features;
     do '(X_train, y_train, X_val, y_val, X_test, y_test) <-
        lift (prepare_features train_df val_df test_df);
     let feature_cols := FEATURE_COLUMNS in
     do model <- lift (train_model X_train y_train X_val y_val XGBOOST_PARAMS);
     do results <- lift (evaluate_model float
                           mean_absolute_error mean_squared_error r2_score
                           (fun x => float_pow x f_0_5)
                           model X_train y_train X_val y_val X_test y_test
                           feature_cols);
     save_model model feature_cols (results_json results)
       MODEL_FILE FEATURE_LIST_FILE RESULTS_FILE)
    (fun e => raise e).

End Pipeline.

End Train.

(** ** Derived forms, call sequences and sample data used in the statements *)

Import Api.

(** The two halves of [load_model], as functions of the state. *)
Definition model_phase (s : State) : result unit * State :=
  match _model s with
  | Some _ => (Ok tt, s)
  | None =>
      let s1 := log_event (EvExists MODEL_FILE) s in
      match files s !! MODEL_FILE with
      | None => (Raise (FileNotFoundError ("Model file not found: " ++ MODEL_FILE)), s1)
      | Some c =>
          let s2 := log_event (EvRead MODEL_FILE) s1 in
          match pickle_load c with
          | Ok o => (Ok tt, set_model o s2)
          | Raise e => (Raise e, s2)
          end
      end
  end.

Definition results_phase (s : State) : result (option Model * Json) * State :=
  match _results s with
  | JNull =>
      let s1 := log_event (EvExists RESULTS_FILE) s in
      match files s !! RESULTS_FILE with
      | None => (Ok (_model s, JNull), s1)
      | Some c =>
          let s2 := log_event (EvRead RESULTS_FILE) s1 in
          match json_load c with
          | Ok j => (Ok (_model s, j), set_results j s2)
          | Raise e => (Raise e, s2)
          end
      end
  | j => (Ok (_model s, j), s)
  end.

(** A run of the server process: before each call of [load_model] the files
    under [models/] are whatever the outside world has made of them. *)
Fixpoint serve (worlds : list (gmap string FileContent)) (s : State)
  : list (result (option Model * Json)) * State :=
  match worlds with
  | [] => ([], s)
  | fs :: rest =>
      let '(r, s1) := load_model (set_files fs s) in
      let '(rs, s2) := serve rest s1 in
      (r :: rs, s2)
  end.

(** An event that concerns the metadata file only. *)
Definition results_event (ev : Event) : Prop :=
  ev = EvExists RESULTS_FILE \/ ev = EvRead RESULTS_FILE.

(** An event that concerns the model file only. *)
Definition model_event (ev : Event) : Prop :=
  ev = EvExists MODEL_FILE \/ ev = EvRead MODEL_FILE.

(** The row the Feature Schema names: the request's attributes looked up by
    name, in the order of [FEATURE_COLUMNS]. *)
Definition schema_row (request : PredictionRequest) : list (option float) :=
  map (fun name => option_map py_float (getattr request name)) FEATURE_COLUMNS.

(** Sample data. *)
Definition f_0_84 : float := S754_finite false 7566047373982433 (-53).
Definition f_4_999 : float := S754_finite false 5628373634306277 (-50).
Definition f_minus_3 : float := Eval cbv in float_of_int (-3).
Definition f_42 : float := Eval cbv in float_of_int 42.

(** A regressor that answers the first feature of each row. *)
Definition sample_model : Model :=
  {| XGBRegressor.predict :=
       fun X => Ok (map (fun row => match row with x :: _ => x | [] => f_zero end) X);
     XGBRegressor.feature_importances_ := Ok (map (fun _ => f_zero) FEATURE_COLUMNS) |}.

Definition sample_results : Json :=
  JObj [ ("model_type", JStr "XGBoost");
         ("n_features", JInt 3);
         ("metrics", JObj [ ("test", JObj [ ("mae", JFloat f_0_84) ]) ]) ].

Definition sample_request (first : float) : PredictionRequest :=
  {| hour_sin := first; hour_cos := f_zero; dow_sin := f_zero; dow_cos := f_zero;
     month_sin := f_zero; month_cos := f_zero; lag_1h := f_42; lag_24h := f_42;
     lag_168h := f_42; diff_24h := f_zero; rolling_7d_mean := f_42;
     rolling_7d_std := f_5; rolling_14d_mean := f_42; rolling_7d_cv := f_zero;
     zone_mean_demand := f_20; zone_rank := f_5; zone_is_top50 := 1 |}.

(** A freshly started process over a given [models/] directory. *)
Definition boot (fs : gmap string FileContent) : State :=
  {| _model := None; _results := JNull; dirs := {[MODELS_DIR]}; files := fs;
     trace := [] |}.

Definition model_only : gmap string FileContent :=
  {[ MODEL_FILE := PickleOf sample_model ]}.
Definition model_and_results : gmap string FileContent :=
  <[ RESULTS_FILE := JsonOf sample_results ]> model_only.
Definition model_and_null : gmap string FileContent :=
  <[ RESULTS_FILE := JsonOf JNull ]> model_only.
Definition none_pickle_only : gmap string FileContent :=
  {[ MODEL_FILE := PickleOfNone ]}.

(** pydantic 2 on a field annotated [float]: [None] is not a float, whatever
    the default; bools and ints are converted, strings parsed. *)
Definition pydantic_float (parse : string -> option float) (v : Json)
  : result (option float) :=
  match v with
  | JNull => Raise (ValidationError "test_mae")
  | JBool b => Ok (Some (float_of_int (if b then 1 else 0)))
  | JInt z => Ok (Some (float_of_int z))
  | JFloat f => Ok (Some f)
  | JStr s => match parse s with
              | Some x => Ok (Some x)
              | None => Raise (ValidationError "test_mae")
              end
  | JList _ | JObj _ => Raise (ValidationError "test_mae")
  end.
Definition no_numeric_strings (s : string) : option float := None.

(** A validator that reads the declaration as an optional float, as pydantic 1
    does (a stand-in for sample runs: it refuses strings, which pydantic would
    try to parse). *)
Definition optional_float (v : Json) : result (option float) :=
  match v with
  | JNull => Ok None
  | JBool b => Ok (Some (float_of_int (if b then 1 else 0)))
  | JInt z => Ok (Some (float_of_int z))
  | JFloat f => Ok (Some f)
  | JStr _ | JList _ | JObj _ => Raise (ValidationError "test_mae")
  end.

(** The entry of one split in the dict [evaluate_model] returned, as [main]
    runs it: on floats, with [x ** 0.5] computed by the platform's power
    function [float_pow]. *)
Definition split_entry (mae mse r2 : Vector -> Vector -> result float)
    (float_pow : float -> float -> float)
    (model : Model) (res : Train.Results float)
    (split : string) (X : Matrix) (y : Vector) : Prop :=
  exists pred a m r,
    XGBRegressor.predict model X = Ok pred /\
    mae y pred = Ok a /\ mse y pred = Ok m /\ r2 y pred = Ok r /\
    assoc split res = Some [("mae", a); ("rmse", float_pow m Train.f_0_5); ("r2", r)].

(** A power function that is as good as one can be at exponent 0.5: the
    correctly rounded square root of IEEE 754. *)
Definition ieee_pow_half (x _ : float) : float := SFsqrt prec emax x.

(** The mean of the squared differences, in binary64 (sklearn's
    [mean_squared_error] on two vectors of one length). *)
Definition float_mse (y pred : Vector) : result float :=
  if Nat.eqb (length y) (length pred) && negb (Nat.eqb (length y) 0)
  then
    let squares := map (fun '(a, b) => let d := SFsub prec emax a b in
                                       SFmul prec emax d d) (combine y pred) in
    Ok (SFdiv prec emax (fold_left (SFadd prec emax) squares f_zero)
          (float_of_int (Z.of_nat (length y))))
  else Raise (ValueError "inconsistent numbers of samples").

Definition f_2 : float := Eval cbv in float_of_int 2.

(** 1.4142135623730951, the binary64 number nearest to the square root of 2. *)
Definition root_of_2 : float := Eval cbv in SFsqrt prec emax f_2.

(** Two rows whose first feature is 2.0 and 0.0, observed 0.0 and 0.0. *)
Definition two_rows_X : Matrix := [[f_2; f_zero]; [f_zero; f_zero]].
Definition two_rows_y : Vector := [f_zero; f_zero].

Definition sample_X : Matrix := [[f_5; f_zero]; [f_20; f_zero]].
Definition sample_y : Vector := [f_4_999; f_20].

(** How a training run can stop before [save_model] is reached. *)
Inductive fails_before_save {DataFrame : Type}
    (load_features : result (DataFrame * DataFrame * DataFrame))
    (prepare_features : DataFrame -> DataFrame -> DataFrame ->
                        result (Matrix * Vector * Matrix * Vector * Matrix * Vector))
    (xgb_fit : Json -> Matrix -> Vector -> list (Matrix * Vector) -> Z -> result Model)
    (mean_absolute_error mean_squared_error r2_score : Vector -> Vector -> result float)
    (float_pow : float -> float -> float) (e : Exn) : Prop :=
  | fail_load :
      load_features = Raise e ->
      fails_before_save load_features prepare_features xgb_fit
        mean_absolute_error mean_squared_error r2_score float_pow e
  | fail_prepare train_df val_df test_df :
      load_features = Ok (train_df, val_df, test_df) ->
      prepare_features train_df val_df test_df = Raise e ->
      fails_before_save load_features prepare_features xgb_fit
        mean_absolute_error mean_squared_error r2_score float_pow e
  | fail_fit train_df val_df test_df X_train y_train X_val y_val X_test y_test :
      load_features = Ok (train_df, val_df, test_df) ->
      prepare_features train_df val_df test_df =
        Ok (X_train, y_train, X_val, y_val, X_test, y_test) ->
      Train.train_model xgb_fit X_train y_train X_val y_val XGBOOST_PARAMS = Raise e ->
      fails_before_save load_features prepare_features xgb_fit
        mean_absolute_error mean_squared_error r2_score float_pow e
  | fail_evaluate train_df val_df test_df X_train y_train X_val y_val X_test y_test
      model :
      load_features = Ok (train_df, val_df, test_df) ->
      prepare_features train_df val_df test_df =
        Ok (X_train, y_train, X_val, y_val, X_test, y_test) ->
      Train.train_model xgb_fit X_train y_train X_val y_val XGBOOST_PARAMS = Ok model ->
      Train.evaluate_model float mean_absolute_error mean_squared_error r2_score
        (fun x => float_pow x Train.f_0_5)
        model X_train y_train X_val y_val X_test y_test FEATURE_COLUMNS = Raise e ->
      fails_before_save load_features prepare_features xgb_fit
        mean_absolute_error mean_squared_error r2_score float_pow e.

(** Collaborators for sample runs: one split served three times; a fit that
    returns [sample_model] or fails; metrics that answer a constant. *)
Definition sample_load : result (unit * unit * unit) := Ok (tt, tt, tt).
Definition sample_prepare (_ _ _ : unit)
  : result (Matrix * Vector * Matrix * Vector * Matrix * Vector) :=
  Ok (sample_X, sample_y, sample_X, sample_y, sample_X, sample_y).
Definition sample_fit (_ : Json) (_ : Matrix) (_ : Vector)
    (_ : list (Matrix * Vector)) (_ : Z) : result Model := Ok sample_model.
Definition failing_fit (_ : Json) (_ : Matrix) (_ : Vector)
    (_ : list (Matrix * Vector)) (_ : Z) : result Model :=
  Raise (LibraryError "XGBoostError").
Definition sample_metric (_ _ : Vector) : result float := Ok f_0_84.
Definition sample_pow (x _ : float) : float := x.

(** A disk that still holds the artifacts of an earlier run. *)
Definition earlier_run : State :=
  {| _model := None; _results := JNull; dirs := {[MODELS_DIR]};
     files := model_and_results; trace := [] |}.

(** A file-system call that only looks at one of the two artifacts the
    server uses. *)
Definition artifact_read (ev : Event) : Prop :=
  ev = EvExists MODEL_FILE \/ ev = EvRead MODEL_FILE \/
  ev = EvExists RESULTS_FILE \/ ev = EvRead RESULTS_FILE.

(** A computation that leaves directories and files as they are and makes
    only such calls. *)
Definition read_only {A} (c : Py A) : Prop :=
  forall s r s',
    c s = (r, s') ->
    files s' = files s /\ dirs s' = dirs s /\
    exists evs, trace s' = (trace s ++ evs)%list /\ Forall artifact_read evs.

(** A new server process on the disk a state describes: both globals are
    [None] again. *)
Definition fresh_process (s : State) : State :=
  set_results JNull (set_model None s).

(** The JSON object [save_model] dumps ([results_with_meta]). *)
Definition results_with_meta (feature_cols : list string) (results : Json) : Json :=
  JObj [ ("model_type", JStr "XGBoost");
         ("n_features", JInt (Z.of_nat (length feature_cols)));
         ("features", JList (map JStr feature_cols));
         ("hyperparameters", XGBOOST_PARAMS);
         ("metrics", results) ].

(** The sample model file beside a metadata file of the given content. *)
Definition model_with (c : FileContent) : gmap string FileContent :=
  <[ RESULTS_FILE := c ]> model_only.

Definition is_object (j : Json) : bool :=
  match j with
  | JObj _ => true
  | _ => false
  end.

(** * Verification *)

(** ** Facts about binary64 comparison *)

Lemma SFcompare_antisym x y c :
  SFcompare x y = Some c -> SFcompare y x = Some (CompOpp c).
Proof.
  destruct x as [sx|sx| |sx mx ex], y as [sy|sy| |sy my ey]; simpl;
    try discriminate;
    try (intros [= <-]; reflexivity);
    try (destruct sx; intros [= <-]; reflexivity);
    try (destruct sy; intros [= <-]; reflexivity);
    try (destruct sx, sy; intros [= <-]; reflexivity).
  rewrite (Z.compare_antisym ex ey).
  change PosDef.Pos.compare_cont with Pos.compare_cont.
  destruct sx, sy; intros [= <-]; try reflexivity;
    destruct (ex ?= ey)%Z; simpl; try reflexivity.
  all: rewrite ?CompOpp_involutive, ?Pos.compare_cont_antisym; reflexivity.
Qed.

Lemma SFleb_not_ltb a x : SFleb a x = true -> SFltb x a = false.
Proof.
  unfold SFleb, SFltb. destruct (SFcompare a x) as [c|] eqn:E; [|discriminate].
  rewrite (SFcompare_antisym _ _ _ E). now destruct c.
Qed.

Lemma SFltb_leb a x : SFltb a x = true -> SFleb a x = true.
Proof. unfold SFleb, SFltb. now destruct (SFcompare a x) as [[]|]. Qed.

Lemma SFeqb_refl_pos x : SFltb f_zero x = true -> SFeqb x x = true.
Proof.
  destruct x as [sx|sx| |sx mx ex]; try discriminate.
  - now destruct sx.
  - destruct sx; [discriminate|]. intros _. unfold SFeqb; simpl.
    rewrite Z.compare_refl. fold (Pos.compare mx mx). now rewrite Pos.compare_refl.
Qed.

Lemma ge_20_not_lt_5 x : SFleb f_20 x = true -> SFltb x f_5 = false.
Proof.
  destruct x as [sx|sx| |sx mx ex]; try discriminate; try (now destruct sx).
  destruct sx; [discriminate|].
  unfold SFleb, SFltb, f_20, f_5, SFcompare.
  destruct (Z.compare_spec (-48) ex) as [E|E|E]; intros H; try discriminate H;
    destruct (Z.compare_spec ex (-50)); try lia; reflexivity.
Qed.

Lemma negative_lt_5 x : SFltb x f_zero = true -> SFltb x f_5 = true.
Proof.
  destruct x as [sx|sx| |sx mx ex]; try discriminate; try (now destruct sx).
Qed.

(** ** The model cache *)

Lemma load_model_unfold s :
  load_model s =
  match model_phase s with
  | (Ok _, s') => results_phase s'
  | (Raise e, s') => (Raise e, s')
  end.
Proof.
  unfold load_model, model_phase, results_phase, bind, get_state, path_exists,
    read_file, lift, modify, ret, raise.
  generalize RESULTS_FILE, MODEL_FILE; intros rf mf.
  destruct s as [mo rs ds fs tr].
  destruct (fs !! rf) as [c'|] eqn:Er; destruct (fs !! mf) as [c|] eqn:Em;
    destruct mo as [m|]; repeat (progress (cbn; rewrite ?Er, ?Em));
    try (destruct (pickle_load c) as [m'|e]; repeat (progress (cbn; rewrite ?Er, ?Em)));
    destruct rs; repeat (progress (cbn; rewrite ?Er, ?Em)); try reflexivity;
    try (destruct (json_load c'); reflexivity).
Qed.

Lemma pickle_load_inv c m : pickle_load c = Ok (Some m) -> c = PickleOf m.
Proof. destruct c; simpl; congruence. Qed.

Lemma json_load_inv c j : json_load c = Ok j -> c = JsonOf j.
Proof. destruct c; simpl; congruence. Qed.

(** With both globals filled, a call is the identity on the state. *)
Lemma load_model_warm s m :
  _model s = Some m -> _results s <> JNull ->
  load_model s = (Ok (Some m, _results s), s).
Proof.
  intros Hm Hr. rewrite load_model_unfold. unfold model_phase. rewrite Hm.
  unfold results_phase. rewrite Hm. now destruct (_results s).
Qed.

Lemma results_phase_spec s r s' :
  results_phase s = (r, s') ->
  _model s' = _model s /\ files s' = files s /\
  (forall mo j, r = Ok (mo, j) -> mo = _model s /\ _results s' = j) /\
  exists evs, trace s' = (trace s ++ evs)%list /\ Forall results_event evs.
Proof.
  assert (Hex : results_event (EvExists RESULTS_FILE)) by now left.
  assert (Hrd : results_event (EvRead RESULTS_FILE)) by now right.
  unfold results_phase.
  destruct (_results s) eqn:Hr.
  2-7: intros [= <- <-]; split_and!; auto;
       [ intros mo j [= <- <-]; now rewrite Hr
       | exists []; rewrite app_nil_r; now split ].
  destruct (files s !! RESULTS_FILE) as [c|] eqn:Hf.
  - destruct (json_load c) as [j|e] eqn:Hj; intros [= <- <-]; simpl; split_and!; auto.
    + intros mo j' [= <- <-]. now split.
    + exists [EvExists RESULTS_FILE; EvRead RESULTS_FILE].
      rewrite <- app_assoc. split; [reflexivity|]. now repeat constructor.
    + discriminate.
    + exists [EvExists RESULTS_FILE; EvRead RESULTS_FILE].
      rewrite <- app_assoc. split; [reflexivity|]. now repeat constructor.
  - intros [= <- <-]; simpl. split_and!; auto.
    + intros mo j [= <- <-]. now split.
    + exists [EvExists RESULTS_FILE]. split; [reflexivity|]. now repeat constructor.
Qed.

(** With the model global filled, a call only ever looks at the metadata
    file, and the model stays. *)
Lemma load_model_model_cached s m r s' :
  _model s = Some m -> load_model s = (r, s') ->
  _model s' = Some m /\ files s' = files s /\
  (forall mo j, r = Ok (mo, j) -> mo = Some m /\ _results s' = j) /\
  exists evs, trace s' = (trace s ++ evs)%list /\ Forall results_event evs.
Proof.
  intros Hm. rewrite load_model_unfold. unfold model_phase. rewrite Hm.
  intros H. apply results_phase_spec in H. now rewrite Hm in H.
Qed.

(** The model half: it leaves files, directories and the metadata global
    alone, looks at the model file only, and when it goes through either the
    global was filled already or it now holds what the file unpickles to. *)
Lemma model_phase_spec s r s' :
  model_phase s = (r, s') ->
  files s' = files s /\ dirs s' = dirs s /\ _results s' = _results s /\
  (exists evs, trace s' = (trace s ++ evs)%list /\ Forall model_event evs) /\
  match r with
  | Ok _ =>
      (exists m, _model s = Some m) /\ s' = s \/
      _model s = None /\
      exists c, files s !! MODEL_FILE = Some c /\ pickle_load c = Ok (_model s') /\
                trace s' = (trace s ++ [EvExists MODEL_FILE; EvRead MODEL_FILE])%list
  | Raise _ => _model s' = None /\ _model s = None
  end.
Proof.
  assert (Hex : model_event (EvExists MODEL_FILE)) by now left.
  assert (Hrd : model_event (EvRead MODEL_FILE)) by now right.
  unfold model_phase. destruct (_model s) as [m|] eqn:Hm.
  - intros [= <- <-]. split_and!; eauto. exists []. now rewrite app_nil_r.
  - destruct (files s !! MODEL_FILE) as [c|].
    + destruct (pickle_load c) as [o|e] eqn:Hp; intros [= <- <-]; simpl.
      * split_and!; auto.
        -- exists [EvExists MODEL_FILE; EvRead MODEL_FILE].
           rewrite <- app_assoc. split; [reflexivity | now repeat constructor].
        -- right. split; [reflexivity|]. exists c. split_and!; auto.
           now rewrite <- app_assoc.
      * split_and!; auto.
        exists [EvExists MODEL_FILE; EvRead MODEL_FILE].
        rewrite <- app_assoc. split; [reflexivity | now repeat constructor].
    + intros [= <- <-]; simpl. split_and!; auto.
      exists [EvExists MODEL_FILE]. split; [reflexivity | now repeat constructor].
Qed.

(** The metadata half, likewise. *)
Lemma results_phase_frame s r s' :
  results_phase s = (r, s') ->
  files s' = files s /\ dirs s' = dirs s /\ _model s' = _model s /\
  (exists evs, trace s' = (trace s ++ evs)%list /\ Forall results_event evs) /\
  match r with
  | Ok (mo, j) => mo = _model s /\ _results s' = j
  | Raise _ => _results s' = JNull /\ _results s = JNull
  end.
Proof.
  assert (Hex : results_event (EvExists RESULTS_FILE)) by now left.
  assert (Hrd : results_event (EvRead RESULTS_FILE)) by now right.
  unfold results_phase. destruct (_results s) eqn:Hr.
  2-7: intros [= <- <-]; split_and!; auto; exists []; now rewrite app_nil_r.
  destruct (files s !! RESULTS_FILE) as [c|].
  - destruct (json_load c) as [j|e]; intros [= <- <-]; simpl;
      (split_and!; auto;
       exists [EvExists RESULTS_FILE; EvRead RESULTS_FILE];
       rewrite <- app_assoc; split; [reflexivity | now repeat constructor]).
  - intros [= <- <-]; simpl. split_and!; auto.
    exists [EvExists RESULTS_FILE]. split; [reflexivity | now repeat constructor].
Qed.

(** What a call returns is what the globals hold afterwards. *)
Lemma load_model_globals s mo j s' :
  load_model s = (Ok (mo, j), s') -> _model s' = mo /\ _results s' = j.
Proof.
  rewrite load_model_unfold.
  destruct (model_phase s) as [[[]|e] s1] eqn:Hmp; [|discriminate].
  intros Hrp. apply results_phase_frame in Hrp as (_ & _ & Hm & _ & Hmo & Hj).
  split; congruence.
Qed.

(** With the metadata global filled, a call only ever looks at the model
    file, and the metadata stays. *)
Lemma load_model_results_cached s r s' :
  _results s <> JNull -> load_model s = (r, s') ->
  _results s' = _results s /\
  (forall mo j, r = Ok (mo, j) -> j = _results s) /\
  exists evs, trace s' = (trace s ++ evs)%list /\ Forall model_event evs.
Proof.
  intros Hr. rewrite load_model_unfold.
  destruct (model_phase s) as [[[]|e] s1] eqn:Hmp;
    apply model_phase_spec in Hmp as (_ & _ & Hres & Hev & _).
  - unfold results_phase. rewrite Hres.
    destruct (_results s) eqn:Hj; [congruence|..];
      intros [= <- <-]; (split_and!; [congruence | | exact Hev]);
      now intros mo j [= <- <-].
  - intros [= <- <-]. split_and!; [congruence | discriminate | exact Hev].
Qed.

Lemma serve_model_cached worlds : forall s m rs s',
  _model s = Some m -> serve worlds s = (rs, s') ->
  _model s' = Some m /\
  Forall (fun r' => forall mo j, r' = Ok (mo, j) -> mo = Some m) rs /\
  exists evs, trace s' = (trace s ++ evs)%list /\ Forall results_event evs.
Proof.
  induction worlds as [|fs rest IH]; intros s m rs s' Hm; simpl.
  - intros [= <- <-]. split_and!; auto. exists []. now rewrite app_nil_r.
  - destruct (load_model (set_files fs s)) as [r s1] eqn:H1.
    destruct (serve rest s1) as [rs' s2] eqn:H2. intros [= <- <-].
    apply (load_model_model_cached _ m) in H1 as (Hm1 & _ & Hr & evs1 & Ht1 & Hev1);
      [|exact Hm].
    destruct (IH _ _ _ _ Hm1 H2) as (Hm2 & Hrs & evs2 & Ht2 & Hev2).
    split_and!; auto.
    + constructor; [|exact Hrs]. intros mo j Hj. now apply (Hr mo j).
    + exists (evs1 ++ evs2)%list. split.
      * rewrite Ht2, Ht1. simpl. now rewrite app_assoc.
      * now apply Forall_app.
Qed.

Lemma serve_results_cached worlds : forall s rs s',
  _results s <> JNull -> serve worlds s = (rs, s') ->
  _results s' = _results s /\
  Forall (fun r' => forall mo j, r' = Ok (mo, j) -> j = _results s) rs /\
  exists evs, trace s' = (trace s ++ evs)%list /\ Forall model_event evs.
Proof.
  induction worlds as [|fs rest IH]; intros s rs s' Hr; simpl.
  - intros [= <- <-]. split_and!; auto. exists []. now rewrite app_nil_r.
  - destruct (load_model (set_files fs s)) as [r s1] eqn:H1.
    destruct (serve rest s1) as [rs' s2] eqn:H2. intros [= <- <-].
    apply load_model_results_cached in H1 as (Hr1 & Hret & evs1 & Ht1 & Hev1);
      [|exact Hr].
    simpl in Hr1, Hret, Ht1.
    assert (Hr1' : _results s1 <> JNull) by congruence.
    destruct (IH _ _ _ Hr1' H2) as (Hr2 & Hrs & evs2 & Ht2 & Hev2).
    split_and!.
    + congruence.
    + constructor; [exact Hret|].
      eapply Forall_impl; [exact Hrs|]. intros r' Hr' mo j Hj.
      rewrite <- Hr1. now apply (Hr' mo j).
    + exists (evs1 ++ evs2)%list. split.
      * rewrite Ht2, Ht1. now rewrite app_assoc.
      * now apply Forall_app.
Qed.

Lemma serve_warm worlds : forall s m rs s',
  _model s = Some m -> _results s <> JNull -> serve worlds s = (rs, s') ->
  Forall (fun r' => r' = Ok (Some m, _results s)) rs /\ trace s' = trace s /\
  _results s' = _results s.
Proof.
  induction worlds as [|fs rest IH]; intros s m rs s' Hm Hr; simpl.
  - now intros [= <- <-].
  - rewrite (load_model_warm (set_files fs s) m Hm Hr).
    destruct (serve rest (set_files fs s)) as [rs' s2] eqn:H2. intros [= <- <-].
    destruct (IH (set_files fs s) m rs' s2 Hm Hr H2) as (Hrs & Ht & Hres).
    split_and!; auto.
Qed.

(** C4 (as amended). Take any call of [load_model] that returns, and the
    calls after it, whatever happens to the files in between. The call
    leaves in the two globals exactly the pair it returns. A global that was
    [None] before the call is filled from its file by the call (the model
    from the model file; the metadata from the metadata file when it exists);
    in a fresh process the file-system calls are the existence test and the
    read of the model file, the existence test of the metadata file and, when
    it exists, its read. From then on: a model that is not [None] is handed
    back by every later call and the model file is never looked at again;
    metadata that is not [None] is handed back by every later call and the
    metadata file is never looked at again; with both, every later call
    returns the same pair and makes no file-system call at all. *)
Theorem load_model_once_per_global s r s1 worlds rs s2 :
  load_model s = (Ok r, s1) ->
  serve worlds s1 = (rs, s2) ->
  (_model s1 = fst r /\ _results s1 = snd r) /\
  (_model s = None ->
   exists c, files s !! MODEL_FILE = Some c /\ pickle_load c = Ok (fst r)) /\
  (_results s = JNull ->
   match files s !! RESULTS_FILE with
   | None => snd r = JNull
   | Some c => json_load c = Ok (snd r)
   end) /\
  (_model s = None -> _results s = JNull ->
   trace s1 = (trace s ++ [EvExists MODEL_FILE; EvRead MODEL_FILE;
                           EvExists RESULTS_FILE] ++
                 match files s !! RESULTS_FILE with
                 | None => []
                 | Some _ => [EvRead RESULTS_FILE]
                 end)%list) /\
  (forall m, fst r = Some m ->
     _model s2 = Some m /\
     Forall (fun r' => forall mo j, r' = Ok (mo, j) -> mo = Some m) rs /\
     exists evs, trace s2 = (trace s1 ++ evs)%list /\ Forall results_event evs) /\
  (snd r <> JNull ->
     _results s2 = snd r /\
     Forall (fun r' => forall mo j, r' = Ok (mo, j) -> j = snd r) rs /\
     exists evs, trace s2 = (trace s1 ++ evs)%list /\ Forall model_event evs) /\
  (forall m, fst r = Some m -> snd r <> JNull ->
     Forall (fun r' => r' = Ok r) rs /\ trace s2 = trace s1).
Proof.
  intros Hload Hserve. destruct r as [mo j]. simpl fst. simpl snd.
  destruct (load_model_globals _ _ _ _ Hload) as [Hm1 Hr1].
  rewrite load_model_unfold in Hload.
  destruct (model_phase s) as [[[]|e] sm] eqn:Hmp; [|discriminate].
  apply model_phase_spec in Hmp as (Hfm & _ & Hrm & _ & Hmodel).
  pose proof (results_phase_frame _ _ _ Hload) as (_ & _ & Hmm & _ & Hmo & _).
  split_and!.
  - exact Hm1.
  - exact Hr1.
  - intros Hnone. destruct Hmodel as [[[m Hm] _]|(_ & c & Hc & Hp & _)];
      [congruence|]. exists c. split; [exact Hc|]. congruence.
  - intros Hnull. unfold results_phase in Hload. rewrite Hrm, Hnull, Hfm in Hload.
    destruct (files s !! RESULTS_FILE) as [c|].
    + destruct (json_load c) as [j'|e]; [|discriminate]. congruence.
    + congruence.
  - intros Hnone Hnull.
    destruct Hmodel as [[[m Hm] _]|(_ & c & _ & _ & Htm)]; [congruence|].
    unfold results_phase in Hload. rewrite Hrm, Hnull, Hfm in Hload.
    destruct (files s !! RESULTS_FILE) as [c'|].
    + destruct (json_load c') as [j'|e]; [|discriminate].
      injection Hload as _ _ <-. simpl. rewrite Htm. now rewrite <- !app_assoc.
    + injection Hload as _ _ <-. simpl. rewrite Htm. now rewrite <- !app_assoc.
  - intros m ->. exact (serve_model_cached _ _ _ _ _ Hm1 Hserve).
  - intros Hnn. rewrite <- Hr1 in Hnn |- *.
    exact (serve_results_cached _ _ _ _ Hnn Hserve).
  - intros m -> Hnn. rewrite <- Hr1 in Hnn.
    destruct (serve_warm _ _ _ _ _ Hm1 Hnn Hserve) as (Hall & Ht & _).
    split; [|exact Ht]. now rewrite Hr1 in Hall.
Qed.

Lemma load_model_once_per_global_witness :
  let s1 := snd (load_model (boot model_and_results)) in
  let later := serve [model_only; model_and_null; ∅] s1 in
  Forall (fun r' => r' = Ok (Some sample_model, sample_results)) (fst later) /\
  trace (snd later) = trace s1.
Proof.
  intros s1 later.
  assert (H1 : load_model (boot model_and_results) =
               (Ok (Some sample_model, sample_results), s1))
    by (vm_compute; reflexivity).
  assert (H2 : serve [model_only; model_and_null; ∅] s1 = (fst later, snd later))
    by (vm_compute; reflexivity).
  destruct (load_model_once_per_global (boot model_and_results) _ _ _ _ _ H1 H2)
    as (_ & _ & _ & _ & _ & _ & Hwarm).
  apply (Hwarm sample_model eq_refl). discriminate.
Defined.

(** C4 (as stated) fails: a process started while only the model file is in
    place returns [(model, None)]; once the metadata file has been written,
    the next call reads it and returns a different pair. *)
Lemma load_model_second_call_reads :
  let first := load_model (boot model_only) in
  let second := load_model (set_files model_and_results (snd first)) in
  fst first = Ok (Some sample_model, JNull) /\
  fst second = Ok (Some sample_model, sample_results) /\
  fst second <> fst first /\
  trace (snd first) =
    [EvExists MODEL_FILE; EvRead MODEL_FILE; EvExists RESULTS_FILE] /\
  trace (snd second) =
    (trace (snd first) ++ [EvExists RESULTS_FILE; EvRead RESULTS_FILE])%list.
Proof. vm_compute. repeat split. discriminate. Qed.

(** C5. On a process that has not loaded the model yet, [load_model] raises
    [FileNotFoundError] as soon as it finds the model file missing (one
    existence test, nothing cached), and that error is raised in no other
    situation. With the model file in place and no metadata file, the call
    returns the model with [None] for the metadata. *)
Theorem load_model_missing_files s :
  _model s = None ->
  (files s !! MODEL_FILE = None ->
   load_model s =
     (Raise (FileNotFoundError "Model file not found: models/xgboost_model.pkl"),
      log_event (EvExists MODEL_FILE) s)) /\
  (forall msg s', load_model s = (Raise (FileNotFoundError msg), s') ->
                  files s !! MODEL_FILE = None) /\
  (forall m, _results s = JNull ->
             files s !! MODEL_FILE = Some (PickleOf m) ->
             files s !! RESULTS_FILE = None ->
             exists s', load_model s = (Ok (Some m, JNull), s') /\
                        _model s' = Some m /\ _results s' = JNull).
Proof.
  intros Hm. rewrite load_model_unfold. unfold model_phase. rewrite Hm.
  split_and!.
  - intros ->. reflexivity.
  - intros msg s'. destruct (files s !! MODEL_FILE) as [c|]; [|reflexivity].
    destruct (pickle_load c) as [m|e] eqn:Hp.
    + unfold results_phase. simpl.
      destruct (_results s); try discriminate.
      destruct (files s !! RESULTS_FILE) as [c'|]; [|discriminate].
      destruct c'; discriminate.
    + destruct c; simpl in Hp; try discriminate; injection Hp as <-; discriminate.
  - intros m Hr -> Hf. simpl. unfold results_phase. simpl. rewrite Hr, Hf.
    eexists. split_and!; [reflexivity|reflexivity|exact Hr].
Qed.

Lemma load_model_missing_files_witness :
  fst (load_model (boot ∅)) =
    Raise (FileNotFoundError "Model file not found: models/xgboost_model.pkl") /\
  fst (load_model (boot model_only)) = Ok (Some sample_model, JNull).
Proof.
  split.
  - destruct (load_model_missing_files (boot ∅) eq_refl) as (Habsent & _ & _).
    rewrite Habsent; reflexivity.
  - destruct (load_model_missing_files (boot model_only) eq_refl) as (_ & _ & Hpresent).
    destruct (Hpresent sample_model eq_refl eq_refl eq_refl) as (s' & -> & _).
    reflexivity.
Defined.

(** ** The handlers *)

Lemma health_check_run f s mo j s' :
  load_model s = (Ok (mo, j), s') ->
  health_check f s =
    (match (if truthy j
            then rbind (dict_get j "metrics" (JObj [])) (fun metrics =>
                 rbind (dict_get metrics "test" (JObj [])) (fun test =>
                 dict_get test "mae" JNull))
            else Ok JNull) with
     | Ok mae =>
         match f mae with
         | Ok mae' =>
             Ok {| status := "healthy";
                   model_loaded := match mo with Some _ => true | None => false end;
                   n_features := 17;
                   test_mae := mae' |}
         | Raise _ => Raise (HTTPException 500 (Text "Model not available"))
         end
     | Raise _ => Raise (HTTPException 500 (Text "Model not available"))
     end, s').
Proof.
  intros H. unfold health_check, try_except, bind, lift, ret, raise. rewrite H.
  destruct (if truthy j then _ else _) as [mae|e]; [|reflexivity].
  destruct (f mae); reflexivity.
Qed.

Lemma health_check_load_fails f s e s' :
  load_model s = (Raise e, s') ->
  health_check f s = (Raise (HTTPException 500 (Text "Model not available")), s').
Proof.
  intros H. unfold health_check, try_except, bind, raise. now rewrite H.
Qed.

Lemma model_info_none s mo s' :
  load_model s = (Ok (mo, JNull), s') ->
  model_info s =
    (Raise (HTTPException 500
              (StrOf (HTTPException 500 (Text "Results metadata not available")))),
     s').
Proof.
  intros H. unfold model_info, try_except, bind, raise. now rewrite H.
Qed.

(** C6 (the code at the failing input). In the state the claim is about,
    model loaded and metadata absent, [health_check] hands
    [HealthResponse] the value [None] for [test_mae]; a response model that
    does not take [None] for a field annotated [float], as pydantic 2 does
    not, raises inside the [try], and the handler fails with 500 "Model not
    available" instead of answering healthy; [/info] fails too. *)
Theorem health_fails_when_none_is_rejected f s m s' e :
  f JNull = Raise e ->
  load_model s = (Ok (Some m, JNull), s') ->
  health_check f s = (Raise (HTTPException 500 (Text "Model not available")), s') /\
  model_info s =
    (Raise (HTTPException 500
              (StrOf (HTTPException 500 (Text "Results metadata not available")))),
     s').
Proof.
  intros Hf Hload. split.
  - rewrite (health_check_run f _ _ _ _ Hload). simpl. now rewrite Hf.
  - exact (model_info_none _ _ _ Hload).
Qed.

Lemma health_fails_when_none_is_rejected_witness :
  fst (health_check (pydantic_float no_numeric_strings) (boot model_only)) =
    Raise (HTTPException 500 (Text "Model not available")).
Proof.
  assert (Hload : load_model (boot model_only) =
                  (Ok (Some sample_model, JNull), snd (load_model (boot model_only))))
    by (vm_compute; reflexivity).
  destruct (health_fails_when_none_is_rejected (pydantic_float no_numeric_strings)
              _ _ _ _ eq_refl Hload) as [-> _].
  reflexivity.
Defined.

(** C10. Every health response that is returned carries [n_features = 17],
    the length of [FEATURE_COLUMNS], whatever the cached metadata holds. *)
Theorem health_n_features_is_schema_length f s h s' :
  health_check f s = (Ok h, s') ->
  n_features h = 17 /\ n_features h = Z.of_nat (length FEATURE_COLUMNS).
Proof.
  destruct (load_model s) as [[[mo j]|e] s1] eqn:Hload.
  - rewrite (health_check_run f _ _ _ _ Hload).
    destruct (if truthy j then _ else _) as [mae|e]; [|discriminate].
    destruct (f mae); [|discriminate].
    intros [= <- _]. split; reflexivity.
  - rewrite (health_check_load_fails f _ _ _ Hload). discriminate.
Qed.

Lemma health_n_features_is_schema_length_witness :
  (exists h, fst (health_check optional_float (boot model_and_results)) = Ok h /\
             test_mae h = Some f_0_84 /\ n_features h = 17) /\
  (exists h, fst (health_check optional_float (boot model_only)) = Ok h /\
             test_mae h = None /\ n_features h = 17).
Proof.
  split.
  - assert (H : health_check optional_float (boot model_and_results) =
                (Ok {| status := "healthy"; model_loaded := true; n_features := 17;
                       test_mae := Some f_0_84 |},
                 snd (health_check optional_float (boot model_and_results))))
      by (vm_compute; reflexivity).
    eexists. rewrite H. split; [reflexivity|]. split; [reflexivity|].
    exact (proj1 (health_n_features_is_schema_length _ _ _ _ H)).
  - assert (H : health_check optional_float (boot model_only) =
                (Ok {| status := "healthy"; model_loaded := true; n_features := 17;
                       test_mae := None |},
                 snd (health_check optional_float (boot model_only))))
      by (vm_compute; reflexivity).
    eexists. rewrite H. split; [reflexivity|]. split; [reflexivity|].
    exact (proj1 (health_n_features_is_schema_length _ _ _ _ H)).
Defined.

Lemma predict_run request s m j s' :
  load_model s = (Ok (Some m, j), s') ->
  predict request s =
    (match XGBRegressor.predict m (features request) with
     | Ok (x :: _) =>
         Ok {| predicted_pickups := py_float (py_max (PyInt 0) (PyFloat x));
               confidence := if SFltb x f_5 then "low"
                             else if SFltb x f_20 then "medium" else "high";
               model_version := "xgboost-v1.0-test-mae-0.84" |}
     | Ok [] => Raise (HTTPException 500 (TextStrOf "Prediction error: " IndexError))
     | Raise e => Raise (HTTPException 500 (TextStrOf "Prediction error: " e))
     end, s').
Proof.
  intros H. unfold predict, try_except, bind, lift, ret, raise. rewrite H.
  destruct (XGBRegressor.predict m (features request)) as [[|x rest]|e]; reflexivity.
Qed.

(** C1. The matrix handed to the model has one row of 17 entries, and entry
    [i] is the request attribute named by [FEATURE_COLUMNS[i]] (as a float64);
    the handler's answer is the model's answer on exactly that matrix. *)
Theorem predict_features_follow_schema request :
  exists row,
    features request = [row] /\
    length row = 17%nat /\ length FEATURE_COLUMNS = 17%nat /\
    map Some row = schema_row request /\
    (forall i name, FEATURE_COLUMNS !! i = Some name ->
       exists v, getattr request name = Some v /\ row !! i = Some (py_float v)) /\
    (forall s m j s', load_model s = (Ok (Some m, j), s') ->
       predict request s =
         (match XGBRegressor.predict m [row] with
          | Ok (x :: _) =>
              Ok {| predicted_pickups := py_float (py_max (PyInt 0) (PyFloat x));
                    confidence := if SFltb x f_5 then "low"
                                  else if SFltb x f_20 then "medium" else "high";
                    model_version := "xgboost-v1.0-test-mae-0.84" |}
          | Ok [] => Raise (HTTPException 500 (TextStrOf "Prediction error: " IndexError))
          | Raise e => Raise (HTTPException 500 (TextStrOf "Prediction error: " e))
          end, s')).
Proof.
  eexists. split; [reflexivity|]. split_and!; try reflexivity.
  - intros i name.
    do 17 (destruct i as [|i];
           [intros [= <-]; eexists; split; reflexivity|]).
    discriminate.
  - intros s m j s' H. exact (predict_run request s m j s' H).
Qed.

Lemma predict_features_follow_schema_witness :
  exists row,
    features (sample_request f_4_999) = [row] /\
    row !! 0%nat = Some f_4_999 /\
    row !! 16%nat = Some (float_of_int 1) /\
    fst (predict (sample_request f_4_999) (boot model_only)) =
      Ok {| predicted_pickups := f_4_999; confidence := "low";
            model_version := "xgboost-v1.0-test-mae-0.84" |}.
Proof.
  destruct (predict_features_follow_schema (sample_request f_4_999))
    as (row & Hrow & _ & _ & _ & Hpos & Hrun).
  exists row. split; [exact Hrow|].
  destruct (Hpos 0%nat "hour_sin" eq_refl) as (v0 & Hv0 & ->).
  destruct (Hpos 16%nat "zone_is_top50" eq_refl) as (v16 & Hv16 & ->).
  injection Hv0 as <-. injection Hv16 as <-.
  split; [reflexivity|]. split; [reflexivity|].
  assert (Hload : load_model (boot model_only) =
                  (Ok (Some sample_model, JNull), snd (load_model (boot model_only))))
    by (vm_compute; reflexivity).
  rewrite (Hrun _ _ _ _ Hload).
  injection Hrow as <-. reflexivity.
Defined.

(** C2. When the model answers with a raw value [x], the response carries
    [max(0, x)]: it is never below zero, it equals [x] when [x >= 0], and it
    is zero when [x < 0]. *)
Theorem predicted_pickups_clamped request s m j s' x rest :
  load_model s = (Ok (Some m, j), s') ->
  XGBRegressor.predict m (features request) = Ok (x :: rest) ->
  exists resp,
    predict request s = (Ok resp, s') /\
    predicted_pickups resp = py_float (py_max (PyInt 0) (PyFloat x)) /\
    SFleb f_zero (predicted_pickups resp) = true /\
    (SFleb f_zero x = true -> SFeqb (predicted_pickups resp) x = true) /\
    (SFltb x f_zero = true -> predicted_pickups resp = f_zero).
Proof.
  intros Hload Hx. rewrite (predict_run request _ _ _ _ Hload), Hx.
  eexists. split; [reflexivity|]. simpl predicted_pickups.
  split; [reflexivity|].
  unfold py_max, py_lt. change (py_float (PyInt 0)) with f_zero.
  change (py_float (PyFloat x)) with x.
  destruct (SFltb f_zero x) eqn:Hpos; simpl py_float;
    change (float_of_int 0) with f_zero.
  - split_and!.
    + now apply SFltb_leb.
    + intros _. now apply SFeqb_refl_pos.
    + intros Hneg. apply SFltb_leb, SFleb_not_ltb in Hpos. congruence.
  - split_and!; [reflexivity| |reflexivity].
    intros Hge. unfold SFleb, f_zero in Hge. unfold SFltb, f_zero in Hpos.
    unfold SFeqb, f_zero.
    destruct (SFcompare (S754_zero false) x) as [[]|]; try discriminate.
    reflexivity.
Qed.

Lemma predicted_pickups_clamped_witness :
  exists resp,
    fst (predict (sample_request f_minus_3) (boot model_only)) = Ok resp /\
    predicted_pickups resp = f_zero.
Proof.
  assert (Hload : load_model (boot model_only) =
                  (Ok (Some sample_model, JNull), snd (load_model (boot model_only))))
    by (vm_compute; reflexivity).
  destruct (predicted_pickups_clamped (sample_request f_minus_3) _ _ _ _
              f_minus_3 [] Hload eq_refl)
    as (resp & Hrun & _ & _ & _ & Hneg).
  exists resp. rewrite Hrun. split; [reflexivity|]. apply Hneg. reflexivity.
Defined.

(** C3. The confidence label is decided by the raw value [x] the model
    answered: below 5 gives "low", from 5 up to but excluding 20 gives
    "medium", 20 and above gives "high"; so exactly 5 is "medium", exactly 20
    is "high", 4.999 is "low" and every negative value is "low". The raw
    value, not the clamped one, is what is tested: a NaN answer, clamped to 0,
    is labelled "high". *)
Theorem confidence_is_step_of_raw request s m j s' x rest :
  load_model s = (Ok (Some m, j), s') ->
  XGBRegressor.predict m (features request) = Ok (x :: rest) ->
  exists resp,
    predict request s = (Ok resp, s') /\
    (SFltb x f_5 = true -> confidence resp = "low") /\
    (SFleb f_5 x = true -> SFltb x f_20 = true -> confidence resp = "medium") /\
    (SFleb f_20 x = true -> confidence resp = "high") /\
    (x = f_5 -> confidence resp = "medium") /\
    (x = f_20 -> confidence resp = "high") /\
    (x = f_4_999 -> confidence resp = "low") /\
    (SFltb x f_zero = true ->
     confidence resp = "low" /\ predicted_pickups resp = f_zero) /\
    (x = S754_nan ->
     confidence resp = "high" /\ predicted_pickups resp = f_zero).
Proof.
  intros Hload Hx. rewrite (predict_run request _ _ _ _ Hload), Hx.
  eexists. split; [reflexivity|]. simpl confidence. simpl predicted_pickups.
  split_and!.
  - now intros ->.
  - intros H5 H20. now rewrite (SFleb_not_ltb _ _ H5), H20.
  - intros H20. now rewrite (ge_20_not_lt_5 _ H20), (SFleb_not_ltb _ _ H20).
  - now intros ->.
  - now intros ->.
  - now intros ->.
  - intros Hneg. rewrite (negative_lt_5 _ Hneg). split; [reflexivity|].
    unfold py_max, py_lt. change (py_float (PyInt 0)) with f_zero.
    change (py_float (PyFloat x)) with x.
    assert (Hle : SFleb x f_zero = true) by now apply SFltb_leb.
    now rewrite (SFleb_not_ltb _ _ Hle).
  - now intros ->.
Qed.

Lemma confidence_is_step_of_raw_witness :
  exists resp,
    fst (predict (sample_request f_20) (boot model_only)) = Ok resp /\
    confidence resp = "high".
Proof.
  assert (Hload : load_model (boot model_only) =
                  (Ok (Some sample_model, JNull), snd (load_model (boot model_only))))
    by (vm_compute; reflexivity).
  destruct (confidence_is_step_of_raw (sample_request f_20) _ _ _ _
              f_20 [] Hload eq_refl)
    as (resp & Hrun & _ & _ & _ & _ & Hhigh & _ & _ & _).
  exists resp. rewrite Hrun. split; [reflexivity|]. apply Hhigh. reflexivity.
Defined.

(** ** train.py: evaluation *)

Lemma rbind_ok {A B} (r : result A) (k : A -> result B) b :
  rbind r k = Ok b -> exists a, r = Ok a /\ k a = Ok b.
Proof. destruct r as [a|e]; simpl; [eauto|discriminate]. Qed.

Lemma evaluate_model_inv Num mae mse r2 pow_half model
    X_train y_train X_val y_val X_test y_test cols res :
  Train.evaluate_model Num mae mse r2 pow_half model
    X_train y_train X_val y_val X_test y_test cols = Ok res ->
  exists p1 p2 p3 a1 m1 r1 a2 m2 r2' a3 m3 r3,
    XGBRegressor.predict model X_train = Ok p1 /\
    XGBRegressor.predict model X_val = Ok p2 /\
    XGBRegressor.predict model X_test = Ok p3 /\
    mae y_train p1 = Ok a1 /\ mse y_train p1 = Ok m1 /\ r2 y_train p1 = Ok r1 /\
    mae y_val p2 = Ok a2 /\ mse y_val p2 = Ok m2 /\ r2 y_val p2 = Ok r2' /\
    mae y_test p3 = Ok a3 /\ mse y_test p3 = Ok m3 /\ r2 y_test p3 = Ok r3 /\
    res = [ ("train", [("mae", a1); ("rmse", pow_half m1); ("r2", r1)]);
            ("val", [("mae", a2); ("rmse", pow_half m2); ("r2", r2')]);
            ("test", [("mae", a3); ("rmse", pow_half m3); ("r2", r3)]) ].
Proof.
  unfold Train.evaluate_model. intros H.
  repeat (apply rbind_ok in H as [? [? H]]).
  injection H as <-. do 12 eexists. split_and!; try eassumption. reflexivity.
Qed.

(** The dict is returned as soon as every library call goes through. *)
Lemma evaluate_model_returns Num mae mse r2 pow_half model
    X_train y_train X_val y_val X_test y_test cols
    p1 p2 p3 a1 m1 r1 a2 m2 r2' a3 m3 r3 imp :
  XGBRegressor.predict model X_train = Ok p1 ->
  XGBRegressor.predict model X_val = Ok p2 ->
  XGBRegressor.predict model X_test = Ok p3 ->
  mae y_train p1 = Ok a1 -> mse y_train p1 = Ok m1 -> r2 y_train p1 = Ok r1 ->
  mae y_val p2 = Ok a2 -> mse y_val p2 = Ok m2 -> r2 y_val p2 = Ok r2' ->
  mae y_test p3 = Ok a3 -> mse y_test p3 = Ok m3 -> r2 y_test p3 = Ok r3 ->
  XGBRegressor.feature_importances_ model = Ok imp -> length imp = length cols ->
  Train.evaluate_model Num mae mse r2 pow_half model
    X_train y_train X_val y_val X_test y_test cols =
  Ok [ ("train", [("mae", a1); ("rmse", pow_half m1); ("r2", r1)]);
       ("val", [("mae", a2); ("rmse", pow_half m2); ("r2", r2')]);
       ("test", [("mae", a3); ("rmse", pow_half m3); ("r2", r3)]) ].
Proof.
  intros. unfold Train.evaluate_model, Train.importance_report.
  repeat (match goal with H : _ = Ok _ |- _ => rewrite H; clear H end;
          cbn [rbind]).
  replace (length cols =? length imp)%nat with true; [reflexivity|].
  symmetry. apply Nat.eqb_eq. congruence.
Qed.

(** C7 (as amended). In the dict [evaluate_model] returns when [main] runs
    it, each of train, val and test holds mae, rmse, r2 in that order, all
    three computed from the one prediction vector of that split, and rmse is
    the mean squared error raised to the power 0.5 by the platform's
    floating-point power function. *)
Theorem evaluate_model_rmse_is_pow_of_mse
    (mae mse r2 : Vector -> Vector -> result float) float_pow model
    X_train y_train X_val y_val X_test y_test cols res :
  Train.evaluate_model float mae mse r2 (fun x => float_pow x Train.f_0_5) model
    X_train y_train X_val y_val X_test y_test cols = Ok res ->
  map fst res = ["train"; "val"; "test"] /\
  Forall (fun entry => map fst (snd entry) = ["mae"; "rmse"; "r2"]) res /\
  split_entry mae mse r2 float_pow model res "train" X_train y_train /\
  split_entry mae mse r2 float_pow model res "val" X_val y_val /\
  split_entry mae mse r2 float_pow model res "test" X_test y_test.
Proof.
  intros H. apply evaluate_model_inv in H
    as (p1 & p2 & p3 & a1 & m1 & r1 & a2 & m2 & r2' & a3 & m3 & r3 &
        Hp1 & Hp2 & Hp3 & Ha1 & Hm1 & Hr1 & Ha2 & Hm2 & Hr2 & Ha3 & Hm3 & Hr3 & ->).
  split; [reflexivity|]. split; [repeat constructor|].
  split_and!.
  - exists p1, a1, m1, r1. split_and!; auto.
  - exists p2, a2, m2, r2'. split_and!; auto.
  - exists p3, a3, m3, r3. split_and!; auto.
Qed.

Lemma evaluate_model_rmse_is_pow_of_mse_witness :
  exists res,
    Train.evaluate_model float sample_metric float_mse sample_metric
      (fun x => ieee_pow_half x Train.f_0_5) sample_model
      two_rows_X two_rows_y two_rows_X two_rows_y two_rows_X two_rows_y
      FEATURE_COLUMNS = Ok res /\
    split_entry sample_metric float_mse sample_metric ieee_pow_half sample_model
      res "test" two_rows_X two_rows_y.
Proof.
  eexists. split; [vm_compute; reflexivity|].
  refine (proj2 (proj2 (proj2 (proj2
    (evaluate_model_rmse_is_pow_of_mse sample_metric float_mse sample_metric
       ieee_pow_half sample_model
       two_rows_X two_rows_y two_rows_X two_rows_y two_rows_X two_rows_y
       FEATURE_COLUMNS _ _))))).
  vm_compute. reflexivity.
Defined.

(** C7 (as stated) fails in binary64: for predictions 2.0 and 0.0 against
    observations 0.0 and 0.0 the mean squared error is exactly 2.0; the rmse
    recorded, with [** 0.5] computed as the correctly rounded square root, is
    1.4142135623730951 and its square is 2.0000000000000004. The next float
    below squares to less than 2.0, so no power function can do better. *)
Lemma rmse_squared_is_not_mse :
  let res := Train.evaluate_model float sample_metric float_mse sample_metric
               (fun x => ieee_pow_half x Train.f_0_5) sample_model
               two_rows_X two_rows_y two_rows_X two_rows_y two_rows_X two_rows_y
               FEATURE_COLUMNS in
  XGBRegressor.predict sample_model two_rows_X = Ok [f_2; f_zero] /\
  float_mse two_rows_y [f_2; f_zero] = Ok f_2 /\
  res = Ok [ ("train", [("mae", f_0_84); ("rmse", root_of_2); ("r2", f_0_84)]);
             ("val", [("mae", f_0_84); ("rmse", root_of_2); ("r2", f_0_84)]);
             ("test", [("mae", f_0_84); ("rmse", root_of_2); ("r2", f_0_84)]) ] /\
  SFeqb (SFmul prec emax root_of_2 root_of_2) f_2 = false /\
  SFltb f_2 (SFmul prec emax root_of_2 root_of_2) = true /\
  SFltb (SFmul prec emax (SFpred prec emax root_of_2) (SFpred prec emax root_of_2))
        f_2 = true.
Proof. vm_compute. repeat split. Qed.

(** ** train.py: the run and its artifacts *)

Example dirname_model_file : dirname MODEL_FILE = MODELS_DIR.
Proof. reflexivity. Qed.

Example dirname_nested : dirname "a/b/c.txt" = "a/b" /\ dirname "c.txt" = "".
Proof. split; reflexivity. Qed.

Lemma write_file_in_models p c s :
  dirname p = MODELS_DIR -> MODELS_DIR ∈ dirs s ->
  write_file p c s =
    (Ok tt, log_event (EvWrite p c) (set_files (<[p := c]> (files s)) s)).
Proof.
  intros Hd Hin. unfold write_file. rewrite bool_decide_eq_true_2; [reflexivity|].
  right. now rewrite Hd.
Qed.

(** C9. [save_model], called as the training run calls it, makes the
    [models] directory exist, then writes the pickled model, then the feature
    list (the 17 names of [FEATURE_COLUMNS] joined by newlines), then the
    metadata JSON with model_type, n_features = 17, the names in order, the
    hyperparameters and the metrics it was given; these are its only
    file-system calls, in this order. *)
Theorem save_model_writes_in_order model results s :
  let feature_list := PlainText (String.concat Train.newline FEATURE_COLUMNS) in
  let metadata :=
    JsonOf (JObj [ ("model_type", JStr "XGBoost");
                   ("n_features", JInt 17);
                   ("features", JList (map JStr FEATURE_COLUMNS));
                   ("hyperparameters", XGBOOST_PARAMS);
                   ("metrics", results) ]) in
  exists s',
    Train.save_model model FEATURE_COLUMNS results
      MODEL_FILE FEATURE_LIST_FILE RESULTS_FILE s = (Ok tt, s') /\
    trace s' = (trace s ++ [ EvMkdir MODELS_DIR;
                             EvWrite MODEL_FILE (PickleOf model);
                             EvWrite FEATURE_LIST_FILE feature_list;
                             EvWrite RESULTS_FILE metadata ])%list /\
    dirs s' = {[MODELS_DIR]} ∪ dirs s /\
    files s' = <[RESULTS_FILE := metadata]>
                 (<[FEATURE_LIST_FILE := feature_list]>
                    (<[MODEL_FILE := PickleOf model]> (files s))) /\
    length FEATURE_COLUMNS = 17%nat /\
    _model s' = _model s /\ _results s' = _results s.
Proof.
  intros feature_list metadata. unfold Train.save_model, bind, mkdir_exist_ok.
  rewrite write_file_in_models; [|reflexivity|simpl; set_solver].
  rewrite write_file_in_models; [|reflexivity|simpl; set_solver].
  rewrite write_file_in_models; [|reflexivity|simpl; set_solver].
  eexists. split; [reflexivity|]. simpl. split_and!; try reflexivity.
  now rewrite <- !app_assoc.
Qed.

Lemma main_stops_before_save {DataFrame : Type}
    (load_features : result (DataFrame * DataFrame * DataFrame))
    prepare_features xgb_fit mae mse r2 float_pow e :
  fails_before_save load_features prepare_features xgb_fit mae mse r2 float_pow e ->
  forall s,
    Train.main DataFrame load_features prepare_features xgb_fit mae mse r2 float_pow s
    = (Raise e, s).
Proof.
  intros Hfail s. unfold Train.main, try_except, bind, lift, raise.
  destruct Hfail as [Hl | tr va te Hl Hp | tr va te X1 y1 X2 y2 X3 y3 Hl Hp Hf
                    | tr va te X1 y1 X2 y2 X3 y3 model Hl Hp Hf He].
  - now rewrite Hl.
  - now rewrite Hl, Hp.
  - now rewrite Hl, Hp, Hf.
  - now rewrite Hl, Hp, Hf, He.
Qed.

(** C8. When loading the datasets, preparing them, fitting or evaluating
    raises, the run ends with that exception and the state is the one it
    started from: no directory made, no file written, no file-system call.
    Conversely a run that made any file-system call got the model and the
    metrics back from training and evaluation first. *)
Theorem main_aborts_without_writing {DataFrame : Type}
    (load_features : result (DataFrame * DataFrame * DataFrame))
    prepare_features xgb_fit mae mse r2 float_pow :
  (forall e s,
     fails_before_save load_features prepare_features xgb_fit mae mse r2 float_pow e ->
     Train.main DataFrame load_features prepare_features xgb_fit mae mse r2 float_pow s
     = (Raise e, s)) /\
  (forall s r s',
     Train.main DataFrame load_features prepare_features xgb_fit mae mse r2 float_pow s
     = (r, s') ->
     s' <> s ->
     exists train_df val_df test_df X_train y_train X_val y_val X_test y_test
            model results,
       load_features = Ok (train_df, val_df, test_df) /\
       prepare_features train_df val_df test_df =
         Ok (X_train, y_train, X_val, y_val, X_test, y_test) /\
       Train.train_model xgb_fit X_train y_train X_val y_val XGBOOST_PARAMS = Ok model /\
       Train.evaluate_model float mae mse r2 (fun x => float_pow x Train.f_0_5)
         model X_train y_train X_val y_val X_test y_test FEATURE_COLUMNS = Ok results /\
       Train.save_model model FEATURE_COLUMNS (Train.results_json results)
         MODEL_FILE FEATURE_LIST_FILE RESULTS_FILE s = (r, s')).
Proof.
  split.
  - intros e s Hfail. now apply main_stops_before_save.
  - intros s r s' Hrun Hchanged.
    destruct load_features as [[[tr va] te]|e] eqn:Hl.
    2:{ rewrite (main_stops_before_save _ _ _ _ _ _ _ e) in Hrun;
          [congruence | now apply fail_load]. }
    destruct (prepare_features tr va te) as [[[[[[X1 y1] X2] y2] X3] y3]|e] eqn:Hp.
    2:{ rewrite (main_stops_before_save _ _ _ _ _ _ _ e) in Hrun;
          [congruence | now apply (fail_prepare _ _ _ _ _ _ _ _ tr va te)]. }
    destruct (Train.train_model xgb_fit X1 y1 X2 y2 XGBOOST_PARAMS) as [model|e] eqn:Hf.
    2:{ rewrite (main_stops_before_save _ _ _ _ _ _ _ e) in Hrun;
          [congruence
          | now apply (fail_fit _ _ _ _ _ _ _ _ tr va te X1 y1 X2 y2 X3 y3)]. }
    destruct (Train.evaluate_model float mae mse r2 (fun x => float_pow x Train.f_0_5)
                model X1 y1 X2 y2 X3 y3 FEATURE_COLUMNS) as [results|e] eqn:He.
    2:{ rewrite (main_stops_before_save _ _ _ _ _ _ _ e) in Hrun;
          [congruence
          | now apply (fail_evaluate _ _ _ _ _ _ _ _ tr va te X1 y1 X2 y2 X3 y3 model)]. }
    exists tr, va, te, X1, y1, X2, y2, X3, y3, model, results.
    split_and!; auto.
    unfold Train.main, try_except, bind, lift, raise in Hrun.
    rewrite Hp, Hf, He in Hrun.
    destruct (Train.save_model model FEATURE_COLUMNS (Train.results_json results)
                MODEL_FILE FEATURE_LIST_FILE RESULTS_FILE s) as [[[]|e] s1];
      exact Hrun.
Qed.

Lemma main_aborts_without_writing_witness :
  Train.main unit sample_load sample_prepare failing_fit
    sample_metric sample_metric sample_metric sample_pow earlier_run
  = (Raise (LibraryError "XGBoostError"), earlier_run).
Proof.
  apply (proj1 (main_aborts_without_writing sample_load sample_prepare failing_fit
                  sample_metric sample_metric sample_metric sample_pow)).
  apply (fail_fit _ _ _ _ _ _ _ _ tt tt tt
           sample_X sample_y sample_X sample_y sample_X sample_y); reflexivity.
Defined.

(** A run whose stages all succeed does reach the write step. *)
Example main_sample_run_writes :
  exists s',
    Train.main unit sample_load sample_prepare sample_fit
      sample_metric sample_metric sample_metric sample_pow (boot ∅) = (Ok tt, s') /\
    map (fun ev => match ev with
                   | EvWrite p _ => p
                   | EvMkdir p | EvExists p | EvRead p => p
                   end) (trace s')
    = [MODELS_DIR; MODEL_FILE; FEATURE_LIST_FILE; RESULTS_FILE].
Proof. eexists. split; vm_compute; reflexivity. Qed.

(** ** Further properties of the server *)

Lemma model_event_artifact_read ev : model_event ev -> artifact_read ev.
Proof. unfold model_event, artifact_read. tauto. Qed.

Lemma results_event_artifact_read ev : results_event ev -> artifact_read ev.
Proof. unfold results_event, artifact_read. tauto. Qed.

Lemma load_model_read_only : read_only load_model.
Proof.
  intros s r s'. rewrite load_model_unfold.
  destruct (model_phase s) as [[[]|e] s1] eqn:Hmp;
    apply model_phase_spec in Hmp as (Hf & Hd & _ & (evs1 & Ht1 & Hev1) & _);
    assert (Hev1' : Forall artifact_read evs1)
      by (eapply Forall_impl; [exact Hev1 | exact model_event_artifact_read]).
  - intros Hrp.
    apply results_phase_frame in Hrp as (Hf2 & Hd2 & _ & (evs2 & Ht2 & Hev2) & _).
    assert (Hev2' : Forall artifact_read evs2)
      by (eapply Forall_impl; [exact Hev2 | exact results_event_artifact_read]).
    split_and!; [congruence|congruence|].
    exists (evs1 ++ evs2)%list. split.
    + rewrite Ht2, Ht1. now rewrite app_assoc.
    + now apply Forall_app.
  - intros [= <- <-]. split_and!; eauto.
Qed.

(** A call that returns [None] for the model found a pickled [None] in the
    model file. *)
Lemma load_model_none_inv s j s' :
  load_model s = (Ok (None, j), s') ->
  _model s = None /\ files s !! MODEL_FILE = Some PickleOfNone.
Proof.
  intros Hload. destruct (load_model_globals _ _ _ _ Hload) as [Hm _].
  rewrite load_model_unfold in Hload.
  destruct (model_phase s) as [[[]|e] s1] eqn:Hmp; [|discriminate].
  apply model_phase_spec in Hmp as (_ & _ & _ & _ & Hmodel).
  apply results_phase_frame in Hload as (_ & _ & Hm' & _).
  destruct Hmodel as [[[m Hs] ->]|(Hnone & c & Hc & Hp & _)]; [congruence|].
  split; [exact Hnone|]. rewrite Hc. f_equal.
  rewrite <- Hm', Hm in Hp. destruct c; simpl in Hp; congruence.
Qed.

(** Each handler ends in the state its call of [load_model] ends in. *)
Lemma health_check_state f s : snd (health_check f s) = snd (load_model s).
Proof.
  destruct (load_model s) as [[[mo j]|e] s1] eqn:H.
  - now rewrite (health_check_run f _ _ _ _ H).
  - now rewrite (health_check_load_fails f _ _ _ H).
Qed.

Lemma predict_state request s : snd (predict request s) = snd (load_model s).
Proof.
  unfold predict, try_except, bind, lift, ret, raise.
  destruct (load_model s) as [[[mo j]|e] s1]; [|reflexivity]. simpl.
  destruct mo as [m|]; [|reflexivity].
  destruct (XGBRegressor.predict m (features request)) as [[|x rest]|e]; reflexivity.
Qed.

Lemma model_info_state s : snd (model_info s) = snd (load_model s).
Proof.
  unfold model_info, try_except, bind, lift, ret, raise.
  destruct (load_model s) as [[[mo j]|e] s1]; [|reflexivity]. simpl.
  destruct j; reflexivity.
Qed.

Lemma startup_event_run s :
  startup_event s =
  (match fst (load_model s) with Ok _ => Ok tt | Raise e => Raise e end,
   snd (load_model s)).
Proof.
  unfold startup_event, try_except, bind, ret, raise.
  destruct (load_model s) as [[a|e] s1]; reflexivity.
Qed.

Lemma read_only_of_state {A} (c : Py A) :
  (forall s, snd (c s) = snd (load_model s)) -> read_only c.
Proof.
  intros Hst s r s' Hc.
  assert (Hs : s' = snd (load_model s)) by (rewrite <- Hst, Hc; reflexivity).
  destruct (load_model s) as [r0 s0] eqn:Hl. simpl in Hs. subst s0.
  exact (load_model_read_only s r0 s' Hl).
Qed.

(** X1. Serving never writes: start-up and the three handlers leave every
    directory and file as it was, and the only file-system calls they make
    are existence tests and reads of the model file and the metadata file. *)
Theorem handlers_read_only f request :
  read_only startup_event /\ read_only (health_check f) /\
  read_only (predict request) /\ read_only model_info.
Proof.
  split_and!; apply read_only_of_state; intros s.
  - now rewrite startup_event_run.
  - apply health_check_state.
  - apply predict_state.
  - apply model_info_state.
Qed.

(** X2. Once both globals are filled (a start-up that found the metadata),
    no handler makes any file-system call or changes the state at all,
    whatever has become of the files since. *)
Theorem warm_handlers_do_no_io f request s m :
  _model s = Some m -> _results s <> JNull ->
  snd (health_check f s) = s /\ snd (predict request s) = s /\
  snd (model_info s) = s /\ snd (startup_event s) = s /\
  fst (startup_event s) = Ok tt.
Proof.
  intros Hm Hr. pose proof (load_model_warm s m Hm Hr) as Hl.
  rewrite health_check_state, predict_state, model_info_state, startup_event_run, Hl.
  now split_and!.
Qed.

Lemma warm_handlers_do_no_io_witness :
  let s := snd (startup_event (boot model_and_results)) in
  snd (predict (sample_request f_20) (set_files ∅ s)) = set_files ∅ s.
Proof.
  intros s.
  exact (proj1 (proj2 (warm_handlers_do_no_io optional_float (sample_request f_20)
                         (set_files ∅ s) sample_model eq_refl
                         ltac:(vm_compute; discriminate)))).
Defined.

(** X3. Start-up raises exactly what the loader raises and succeeds when the
    loader does. In a fresh process: a missing model file gives
    FileNotFoundError; a model file that cannot be unpickled gives the
    unpickler's exception, with nothing cached; otherwise the unpickled object
    is cached, even when it is [None], and start-up then fails only if the
    metadata file exists and cannot be loaded, with the JSON loader's
    exception. *)
Theorem startup_event_outcome s :
  fst (startup_event s) =
    match fst (load_model s) with Ok _ => Ok tt | Raise e => Raise e end /\
  (_model s = None -> _results s = JNull ->
   match files s !! MODEL_FILE with
   | None =>
       fst (startup_event s) =
         Raise (FileNotFoundError "Model file not found: models/xgboost_model.pkl")
   | Some c =>
       match pickle_load c with
       | Raise e =>
           fst (startup_event s) = Raise e /\ _model (snd (startup_event s)) = None
       | Ok o =>
           _model (snd (startup_event s)) = o /\
           match files s !! RESULTS_FILE with
           | None =>
               fst (startup_event s) = Ok tt /\
               _results (snd (startup_event s)) = JNull
           | Some c' =>
               match json_load c' with
               | Ok j =>
                   fst (startup_event s) = Ok tt /\
                   _results (snd (startup_event s)) = j
               | Raise e => fst (startup_event s) = Raise e
               end
           end
       end
   end).
Proof.
  split; [now rewrite startup_event_run|].
  intros Hm Hr. rewrite startup_event_run, load_model_unfold.
  unfold model_phase. rewrite Hm.
  destruct (files s !! MODEL_FILE) as [c|]; [|reflexivity].
  destruct (pickle_load c) as [o|e]; simpl; [|split; [reflexivity|exact Hm]].
  unfold results_phase. simpl. rewrite Hr.
  destruct (files s !! RESULTS_FILE) as [c'|]; simpl; [|now split_and!].
  destruct (json_load c'); simpl; now split_and!.
Qed.

Lemma startup_event_outcome_witness :
  fst (startup_event (boot model_only)) = Ok tt /\
  fst (startup_event (boot (model_with Garbage))) = Raise JSONDecodeError /\
  (fst (startup_event (boot none_pickle_only)) = Ok tt /\
   _model (snd (startup_event (boot none_pickle_only))) = None).
Proof.
  split_and!.
  - pose proof (proj2 (startup_event_outcome (boot model_only)) eq_refl eq_refl) as H.
    replace (files (boot model_only) !! MODEL_FILE) with (Some (PickleOf sample_model))
      in H by (vm_compute; reflexivity).
    replace (files (boot model_only) !! RESULTS_FILE) with (@None FileContent)
      in H by (vm_compute; reflexivity).
    exact (proj1 (proj2 H)).
  - pose proof (proj2 (startup_event_outcome (boot (model_with Garbage)))
                  eq_refl eq_refl) as H.
    replace (files (boot (model_with Garbage)) !! MODEL_FILE)
      with (Some (PickleOf sample_model)) in H by (vm_compute; reflexivity).
    replace (files (boot (model_with Garbage)) !! RESULTS_FILE)
      with (Some Garbage) in H by (vm_compute; reflexivity).
    exact (proj2 H).
  - pose proof (proj2 (startup_event_outcome (boot none_pickle_only))
                  eq_refl eq_refl) as H.
    replace (files (boot none_pickle_only) !! MODEL_FILE)
      with (Some PickleOfNone) in H by (vm_compute; reflexivity).
    replace (files (boot none_pickle_only) !! RESULTS_FILE)
      with (@None FileContent) in H by (vm_compute; reflexivity).
    exact (proj1 (proj2 H)).
  - pose proof (proj2 (startup_event_outcome (boot none_pickle_only))
                  eq_refl eq_refl) as H.
    replace (files (boot none_pickle_only) !! MODEL_FILE)
      with (Some PickleOfNone) in H by (vm_compute; reflexivity).
    exact (proj1 H).
Defined.

(** X4. A health response, when one is returned, always says "healthy", and
    its [model_loaded] says whether the object [load_model] returned is not
    [None]: it is false exactly when the model file holds a pickled [None],
    in which case the handler still answers healthy. Every failure, whatever
    its cause, is the one HTTPException 500 "Model not available"; and a
    failing [load_model] is such a failure. *)
Theorem health_check_outcomes f s r s' :
  health_check f s = (r, s') ->
  match r with
  | Ok h =>
      status h = "healthy" /\
      exists mo j,
        load_model s = (Ok (mo, j), s') /\
        model_loaded h = match mo with Some _ => true | None => false end /\
        (model_loaded h = false ->
         _model s = None /\ files s !! MODEL_FILE = Some PickleOfNone)
  | Raise e => e = HTTPException 500 (Text "Model not available")
  end /\
  (forall e, fst (load_model s) = Raise e ->
             r = Raise (HTTPException 500 (Text "Model not available"))).
Proof.
  destruct (load_model s) as [[[mo j]|e] s1] eqn:Hload.
  - rewrite (health_check_run f _ _ _ _ Hload).
    destruct (if truthy j then _ else _) as [mae|e].
    + destruct (f mae); intros [= <- <-]; (split; [|discriminate]); [|reflexivity].
      simpl. split; [reflexivity|]. exists mo, j. split_and!; auto.
      destruct mo; [discriminate|]. intros _.
      exact (load_model_none_inv _ _ _ Hload).
    + intros [= <- <-]. split; [reflexivity|discriminate].
  - rewrite (health_check_load_fails f _ _ _ Hload). intros [= <- <-].
    split; [reflexivity|]. intros; reflexivity.
Qed.

Lemma health_check_outcomes_witness :
  fst (health_check optional_float (boot ∅)) =
    Raise (HTTPException 500 (Text "Model not available")) /\
  fst (health_check optional_float (boot none_pickle_only)) =
    Ok {| status := "healthy"; model_loaded := false; n_features := 17;
          test_mae := None |}.
Proof.
  split.
  - destruct (health_check optional_float (boot ∅)) as [r s'] eqn:H.
    destruct (health_check_outcomes _ _ _ _ H) as [_ Hfail].
    exact (Hfail (FileNotFoundError "Model file not found: models/xgboost_model.pkl")
             eq_refl).
  - assert (H : health_check optional_float (boot none_pickle_only) =
                (Ok {| status := "healthy"; model_loaded := false; n_features := 17;
                       test_mae := None |},
                 snd (health_check optional_float (boot none_pickle_only))))
      by (vm_compute; reflexivity).
    destruct (health_check_outcomes _ _ _ _ H) as [(_ & mo & j & _ & _ & Hnone) _].
    destruct (Hnone eq_refl) as [_ Hfile]. now rewrite H.
Defined.

(** X5. Missing keys in the metadata do not fail the health check: when the
    metadata object has no "metrics" entry, or its "metrics" object has no
    "test" entry, or that has no "mae" entry, the response is healthy with
    [test_mae] absent (the response model taking [None] for that field). *)
Theorem health_check_tolerates_missing_keys f s m kvs s' :
  f JNull = Ok None ->
  load_model s = (Ok (Some m, JObj kvs), s') ->
  assoc "metrics" kvs = None \/
  (exists ms, assoc "metrics" kvs = Some (JObj ms) /\
     (assoc "test" ms = None \/
      exists ts, assoc "test" ms = Some (JObj ts) /\ assoc "mae" ts = None)) ->
  health_check f s =
    (Ok {| status := "healthy"; model_loaded := true; n_features := 17;
           test_mae := None |}, s').
Proof.
  intros Hf Hload Hshape. rewrite (health_check_run f _ _ _ _ Hload).
  destruct kvs as [|kv kvs']; [simpl; now rewrite Hf|].
  cbn [truthy dict_get rbind].
  destruct Hshape as [H1|(ms & H1 & [H2|(ts & H2 & H3)])];
    rewrite H1; simpl; rewrite ?H2; simpl; rewrite ?H3; simpl; now rewrite Hf.
Qed.

Lemma health_check_tolerates_missing_keys_witness :
  fst (health_check optional_float
         (boot (model_with (JsonOf (JObj [("model_type", JStr "XGBoost")]))))) =
    Ok {| status := "healthy"; model_loaded := true; n_features := 17;
          test_mae := None |}.
Proof.
  assert (Hload :
    load_model (boot (model_with (JsonOf (JObj [("model_type", JStr "XGBoost")])))) =
    (Ok (Some sample_model, JObj [("model_type", JStr "XGBoost")]),
     snd (load_model
            (boot (model_with (JsonOf (JObj [("model_type", JStr "XGBoost")])))))))
    by (vm_compute; reflexivity).
  rewrite (health_check_tolerates_missing_keys optional_float _ _ _ _
             eq_refl Hload (or_introl eq_refl)).
  reflexivity.
Defined.

(** X6. A "metrics" or "test" entry that is present but is not an object
    (null, a number, a list, ...) does fail the health check, with the same 500
    "Model not available", although the model is loaded. *)
Theorem health_check_fails_on_malformed_metrics f s m kvs s' :
  load_model s = (Ok (Some m, JObj kvs), s') ->
  (exists v, assoc "metrics" kvs = Some v /\ is_object v = false) \/
  (exists ms v, assoc "metrics" kvs = Some (JObj ms) /\
                assoc "test" ms = Some v /\ is_object v = false) ->
  health_check f s = (Raise (HTTPException 500 (Text "Model not available")), s').
Proof.
  intros Hload Hshape. rewrite (health_check_run f _ _ _ _ Hload).
  assert (Htruthy : truthy (JObj kvs) = true).
  { destruct kvs; [|reflexivity].
    destruct Hshape as [(v & H & _)|(ms & v & H & _)]; discriminate. }
  rewrite Htruthy. cbn [dict_get rbind].
  destruct Hshape as [(v & -> & Hv)|(ms & v & -> & Hms & Hv)].
  - destruct v; try discriminate; reflexivity.
  - cbn [dict_get rbind]. rewrite Hms. destruct v; try discriminate; reflexivity.
Qed.

Lemma health_check_fails_on_malformed_metrics_witness :
  fst (health_check optional_float
         (boot (model_with (JsonOf (JObj [("metrics", JNull)]))))) =
    Raise (HTTPException 500 (Text "Model not available")).
Proof.
  assert (Hload :
    load_model (boot (model_with (JsonOf (JObj [("metrics", JNull)])))) =
    (Ok (Some sample_model, JObj [("metrics", JNull)]),
     snd (load_model (boot (model_with (JsonOf (JObj [("metrics", JNull)])))))))
    by (vm_compute; reflexivity).
  rewrite (health_check_fails_on_malformed_metrics optional_float _ _ _ _ Hload
             (or_introl (ex_intro _ JNull (conj eq_refl eq_refl)))).
  reflexivity.
Defined.

(** X7. [predict] returns a response exactly when the model loads and answers
    a non-empty vector. Every failure is an HTTPException 500 whose detail is
    "Prediction error: " followed by the cause: the loader's exception, the
    model's exception, IndexError for an empty answer, or AttributeError when
    the object loaded is [None]. *)
Theorem predict_outcomes request s r s' :
  predict request s = (r, s') ->
  match r with
  | Ok resp =>
      exists m j x rest,
        load_model s = (Ok (Some m, j), s') /\
        XGBRegressor.predict m (features request) = Ok (x :: rest)
  | Raise e =>
      exists cause,
        e = HTTPException 500 (TextStrOf "Prediction error: " cause) /\
        (load_model s = (Raise cause, s') \/
         (exists m j,
            load_model s = (Ok (Some m, j), s') /\
            (XGBRegressor.predict m (features request) = Raise cause \/
             XGBRegressor.predict m (features request) = Ok [] /\ cause = IndexError)) \/
         (exists j,
            load_model s = (Ok (None, j), s') /\ cause = AttributeError "predict"))
  end.
Proof.
  destruct (load_model s) as [[[[m|] j]|e] s1] eqn:Hload.
  - rewrite (predict_run request _ _ _ _ Hload).
    destruct (XGBRegressor.predict m (features request)) as [[|x rest]|e] eqn:Hp;
      intros [= <- <-].
    + exists IndexError. split; [reflexivity|]. right. left. exists m, j. auto.
    + exists m, j, x, rest. auto.
    + exists e. split; [reflexivity|]. right. left. exists m, j. auto.
  - unfold predict, try_except, bind, lift, raise. rewrite Hload. simpl.
    intros [= <- <-]. exists (AttributeError "predict"). split; [reflexivity|].
    right. right. exists j. auto.
  - unfold predict, try_except, bind, raise. rewrite Hload. intros [= <- <-].
    exists e. auto.
Qed.

Lemma predict_outcomes_witness :
  exists cause,
    fst (predict (sample_request f_5) (boot ∅)) =
      Raise (HTTPException 500 (TextStrOf "Prediction error: " cause)).
Proof.
  destruct (predict (sample_request f_5) (boot ∅)) as [r s'] eqn:H.
  pose proof (predict_outcomes _ _ _ _ H) as Hout.
  assert (Hr : r = fst (predict (sample_request f_5) (boot ∅))) by now rewrite H.
  vm_compute in Hr. subst r. destruct Hout as (cause & -> & _).
  exists cause. reflexivity.
Defined.

(** X8. The metadata never influences a prediction: with the same model
    loaded, two states give the same answer to the same request, whatever
    metadata each holds; the version label is the same fixed string. *)
Theorem predict_ignores_metadata request s1 s2 m j1 j2 s1' s2' :
  load_model s1 = (Ok (Some m, j1), s1') ->
  load_model s2 = (Ok (Some m, j2), s2') ->
  fst (predict request s1) = fst (predict request s2) /\
  (forall resp, fst (predict request s1) = Ok resp ->
                model_version resp = "xgboost-v1.0-test-mae-0.84").
Proof.
  intros H1 H2.
  rewrite (predict_run request _ _ _ _ H1), (predict_run request _ _ _ _ H2).
  split; [reflexivity|]. simpl.
  destruct (XGBRegressor.predict m (features request)) as [[|x rest]|e];
    try discriminate.
  now intros resp [= <-].
Qed.

Lemma predict_ignores_metadata_witness :
  fst (predict (sample_request f_20) (boot model_only)) =
  fst (predict (sample_request f_20) (boot model_and_results)).
Proof.
  assert (H1 : load_model (boot model_only) =
               (Ok (Some sample_model, JNull), snd (load_model (boot model_only))))
    by (vm_compute; reflexivity).
  assert (H2 : load_model (boot model_and_results) =
               (Ok (Some sample_model, sample_results),
                snd (load_model (boot model_and_results))))
    by (vm_compute; reflexivity).
  exact (proj1 (predict_ignores_metadata (sample_request f_20) _ _ _ _ _ _ _ H1 H2)).
Defined.

Lemma SFcompare_defined x a :
  x <> S754_nan -> a <> S754_nan -> exists c, SFcompare x a = Some c.
Proof.
  destruct x as [sx|sx| |sx mx ex], a as [sa|sa| |sa ma ea]; intros Hx Ha;
    try congruence; unfold SFcompare; eauto.
Qed.

Lemma SFltb_false_leb x a :
  x <> S754_nan -> a <> S754_nan -> SFltb x a = false -> SFleb a x = true.
Proof.
  intros Hx Ha. destruct (SFcompare_defined x a Hx Ha) as [c Hc].
  unfold SFltb, SFleb. rewrite Hc, (SFcompare_antisym _ _ _ Hc).
  now destruct c.
Qed.

Lemma SFltb_not_nan_l x a : SFltb x a = true -> x <> S754_nan.
Proof. now intros H ->. Qed.

Lemma ge_5_positive x : SFleb f_5 x = true -> SFltb f_zero x = true.
Proof.
  destruct x as [sx|sx| |sx mx ex]; try discriminate; try (now destruct sx).
Qed.

Lemma ge_20_positive x : SFleb f_20 x = true -> SFltb f_zero x = true.
Proof.
  destruct x as [sx|sx| |sx mx ex]; try discriminate; try (now destruct sx).
Qed.

Lemma f_5_not_nan : f_5 <> S754_nan.
Proof. discriminate. Qed.

Lemma f_20_not_nan : f_20 <> S754_nan.
Proof. discriminate. Qed.

(** X9. The label agrees with the number returned beside it: "low" comes
    with [predicted_pickups < 5]; "medium" with the raw value itself, which
    lies in [5, 20); "high" with the raw value itself, at least 20, unless the
    model answered NaN. *)
Theorem confidence_agrees_with_value request s m j s' x rest resp :
  load_model s = (Ok (Some m, j), s') ->
  XGBRegressor.predict m (features request) = Ok (x :: rest) ->
  predict request s = (Ok resp, s') ->
  (confidence resp = "low" \/ confidence resp = "medium" \/ confidence resp = "high") /\
  (confidence resp = "low" -> SFltb (predicted_pickups resp) f_5 = true) /\
  (confidence resp = "medium" ->
   predicted_pickups resp = x /\ SFleb f_5 x = true /\ SFltb x f_20 = true) /\
  (confidence resp = "high" ->
   x = S754_nan \/ predicted_pickups resp = x /\ SFleb f_20 x = true).
Proof.
  intros Hload Hx. rewrite (predict_run request _ _ _ _ Hload), Hx.
  intros [= <-]. cbn [confidence predicted_pickups].
  unfold py_max, py_lt. change (py_float (PyInt 0)) with f_zero.
  change (py_float (PyFloat x)) with x.
  assert (Hclamp : forall b : bool, SFltb f_zero x = b ->
            py_float (if b then PyFloat x else PyInt 0) = if b then x else f_zero)
    by (intros [] _; reflexivity).
  rewrite (Hclamp _ eq_refl).
  destruct (SFltb x f_5) eqn:H5; [|destruct (SFltb x f_20) eqn:H20].
  - split_and!; try discriminate; auto.
    intros _. destruct (SFltb f_zero x); [exact H5 | reflexivity].
  - assert (H5' : SFleb f_5 x = true)
      by (apply SFltb_false_leb;
          [now apply SFltb_not_nan_l with f_20 | exact f_5_not_nan | exact H5]).
    split_and!; try discriminate; auto.
    intros _. now rewrite (ge_5_positive _ H5').
  - split_and!; try discriminate; auto.
    intros _. destruct x as [sx|sx| |sx mx ex] eqn:Ex; [right|right|now left|right];
      rewrite <- Ex in *;
      (assert (H20' : SFleb f_20 x = true)
         by (apply SFltb_false_leb;
             [rewrite Ex; discriminate | exact f_20_not_nan | exact H20]));
      now rewrite (ge_20_positive _ H20').
Qed.

Lemma confidence_agrees_with_value_witness :
  exists resp,
    fst (predict (sample_request f_4_999) (boot model_only)) = Ok resp /\
    SFltb (predicted_pickups resp) f_5 = true.
Proof.
  assert (Hload : load_model (boot model_only) =
                  (Ok (Some sample_model, JNull), snd (load_model (boot model_only))))
    by (vm_compute; reflexivity).
  assert (Hrun : predict (sample_request f_4_999) (boot model_only) =
                 (Ok {| predicted_pickups := f_4_999; confidence := "low";
                        model_version := "xgboost-v1.0-test-mae-0.84" |},
                  snd (load_model (boot model_only))))
    by (vm_compute; reflexivity).
  eexists. rewrite Hrun. split; [reflexivity|].
  exact (proj1 (proj2 (confidence_agrees_with_value (sample_request f_4_999) _ _ _ _
                         f_4_999 [] _ Hload eq_refl Hrun)) eq_refl).
Defined.

(** X10. A metadata file that exists but is not a JSON document fails every
    handler, [predict] included, although the model is loaded: the model
    global is filled, the metadata global stays [None], so the next call
    reads the file again and fails the same way. *)
Theorem unreadable_metadata_fails_every_call f request s c e :
  _results s = JNull ->
  files s !! RESULTS_FILE = Some c -> json_load c = Raise e ->
  (exists m, _model s = Some m \/
             _model s = None /\ files s !! MODEL_FILE = Some (PickleOf m)) ->
  exists s' m,
    predict request s =
      (Raise (HTTPException 500 (TextStrOf "Prediction error: " e)), s') /\
    health_check f s = (Raise (HTTPException 500 (Text "Model not available")), s') /\
    model_info s = (Raise (HTTPException 500 (StrOf e)), s') /\
    fst (startup_event s) = Raise e /\
    _model s' = Some m /\ _results s' = JNull /\ files s' = files s.
Proof.
  intros Hr Hf Hj (m & Hm).
  assert (Hload : exists s', load_model s = (Raise e, s') /\
                    _model s' = Some m /\ _results s' = JNull /\ files s' = files s).
  { rewrite load_model_unfold. unfold model_phase.
    destruct Hm as [Hm|[Hm Hmf]]; rewrite Hm.
    - unfold results_phase. rewrite Hr, Hf, Hj. eexists. split_and!; eauto.
    - rewrite Hmf. simpl. unfold results_phase. simpl. rewrite Hr, Hf, Hj.
      eexists. split_and!; eauto. }
  destruct Hload as (s' & Hload & Hm' & Hr' & Hf').
  exists s', m. split_and!; auto.
  - unfold predict, try_except, bind, raise. now rewrite Hload.
  - exact (health_check_load_fails f _ _ _ Hload).
  - unfold model_info, try_except, bind, raise. now rewrite Hload.
  - now rewrite startup_event_run, Hload.
Qed.

Lemma unreadable_metadata_fails_every_call_witness :
  fst (predict (sample_request f_20) (boot (model_with Garbage))) =
    Raise (HTTPException 500 (TextStrOf "Prediction error: " JSONDecodeError)) /\
  fst (predict (sample_request f_20)
         (snd (predict (sample_request f_20) (boot (model_with Garbage))))) =
    Raise (HTTPException 500 (TextStrOf "Prediction error: " JSONDecodeError)).
Proof.
  assert (Hfile : files (boot (model_with Garbage)) !! RESULTS_FILE = Some Garbage)
    by (vm_compute; reflexivity).
  assert (Hmodel : files (boot (model_with Garbage)) !! MODEL_FILE =
                   Some (PickleOf sample_model))
    by (vm_compute; reflexivity).
  destruct (unreadable_metadata_fails_every_call optional_float (sample_request f_20)
              (boot (model_with Garbage)) Garbage JSONDecodeError
              eq_refl Hfile eq_refl
              (ex_intro _ sample_model (or_intror (conj eq_refl Hmodel))))
    as (s' & m & Hp & _ & _ & _ & Hm & Hr & Hf).
  rewrite Hp. split; [reflexivity|]. simpl snd.
  rewrite <- Hf in Hfile.
  destruct (unreadable_metadata_fails_every_call optional_float (sample_request f_20)
              s' Garbage JSONDecodeError Hr Hfile eq_refl
              (ex_intro _ m (or_introl Hm)))
    as (s'' & m' & Hp' & _).
  now rewrite Hp'.
Defined.

(** X16. Metadata that is a JSON document but not an object (a list, a
    number, a string, a boolean): [/info] always fails with 500, the cause
    being the missing [get] method; [/health] fails too when the value is
    truthy, and answers healthy without [test_mae] when it is falsy. *)
Theorem non_object_metadata f s m j s' :
  load_model s = (Ok (Some m, j), s') ->
  j <> JNull -> is_object j = false ->
  model_info s = (Raise (HTTPException 500 (StrOf (AttributeError "get"))), s') /\
  (truthy j = true ->
   health_check f s = (Raise (HTTPException 500 (Text "Model not available")), s')) /\
  (truthy j = false -> f JNull = Ok None ->
   health_check f s =
     (Ok {| status := "healthy"; model_loaded := true; n_features := 17;
            test_mae := None |}, s')).
Proof.
  intros Hload Hnn Hobj. rewrite (health_check_run f _ _ _ _ Hload).
  split_and!.
  - unfold model_info, try_except, bind, lift, ret, raise. rewrite Hload.
    destruct j; try discriminate; try reflexivity. congruence.
  - intros ->. destruct j; try discriminate; reflexivity.
  - intros -> Hf. now rewrite Hf.
Qed.

Lemma non_object_metadata_witness :
  fst (model_info (boot (model_with (JsonOf (JList []))))) =
    Raise (HTTPException 500 (StrOf (AttributeError "get"))) /\
  fst (health_check optional_float (boot (model_with (JsonOf (JList []))))) =
    Ok {| status := "healthy"; model_loaded := true; n_features := 17;
          test_mae := None |}.
Proof.
  assert (Hload :
    load_model (boot (model_with (JsonOf (JList [])))) =
    (Ok (Some sample_model, JList []),
     snd (load_model (boot (model_with (JsonOf (JList [])))))))
    by (vm_compute; reflexivity).
  destruct (non_object_metadata optional_float _ _ _ _ Hload
              ltac:(discriminate) eq_refl) as (Hinfo & _ & Hhealth).
  rewrite Hinfo, (Hhealth eq_refl eq_refl). split; reflexivity.
Defined.

(** ** Further properties of the training run *)

Lemma artifact_paths_differ :
  MODEL_FILE <> FEATURE_LIST_FILE /\ MODEL_FILE <> RESULTS_FILE /\
  FEATURE_LIST_FILE <> RESULTS_FILE.
Proof. split_and!; discriminate. Qed.

Lemma save_model_run model cols results s :
  exists s',
    Train.save_model model cols results MODEL_FILE FEATURE_LIST_FILE RESULTS_FILE s
    = (Ok tt, s') /\
    files s' = <[RESULTS_FILE := JsonOf (results_with_meta cols results)]>
                 (<[FEATURE_LIST_FILE := PlainText (String.concat Train.newline cols)]>
                    (<[MODEL_FILE := PickleOf model]> (files s))) /\
    dirs s' = {[MODELS_DIR]} ∪ dirs s /\
    _model s' = _model s /\ _results s' = _results s.
Proof.
  unfold Train.save_model, bind, mkdir_exist_ok.
  rewrite write_file_in_models; [|reflexivity|simpl; set_solver].
  rewrite write_file_in_models; [|reflexivity|simpl; set_solver].
  rewrite write_file_in_models; [|reflexivity|simpl; set_solver].
  eexists. split; [reflexivity|]. simpl. split_and!; reflexivity.
Qed.

Lemma load_after_save model cols results s s' :
  Train.save_model model cols results MODEL_FILE FEATURE_LIST_FILE RESULTS_FILE s
  = (Ok tt, s') ->
  exists s2,
    load_model (fresh_process s') =
      (Ok (Some model, results_with_meta cols results), s2).
Proof.
  intros Hsave. destruct (save_model_run model cols results s)
    as (s1 & Hrun & Hfiles & _). rewrite Hrun in Hsave. injection Hsave as ->.
  destruct artifact_paths_differ as (Hmf & Hmr & Hfr).
  rewrite load_model_unfold. unfold model_phase, fresh_process. simpl.
  rewrite Hfiles.
  rewrite lookup_insert_ne by congruence.
  rewrite lookup_insert_ne by congruence.
  rewrite lookup_insert_eq. simpl.
  unfold results_phase. simpl. rewrite Hfiles, lookup_insert_eq. simpl.
  eexists. reflexivity.
Qed.

(** X12. Round trip through the artifact store: whatever the store held
    before, after [save_model] has written to the three configured paths a
    new server process loads exactly the model and the metadata object that
    were saved (model_type, n_features, features, hyperparameters, metrics),
    and the feature list file holds the names joined by newlines. *)
Theorem save_model_then_load_model model cols results s :
  let saved := Train.save_model model cols results
                 MODEL_FILE FEATURE_LIST_FILE RESULTS_FILE s in
  fst saved = Ok tt /\
  fst (load_model (fresh_process (snd saved))) =
    Ok (Some model, results_with_meta cols results) /\
  files (snd saved) !! FEATURE_LIST_FILE =
    Some (PlainText (String.concat Train.newline cols)) /\
  fst (model_info (fresh_process (snd saved))) = Ok (results_with_meta cols results).
Proof.
  intros saved. subst saved.
  destruct (save_model_run model cols results s) as (s1 & Hrun & Hfiles & _).
  rewrite Hrun. simpl fst. simpl snd.
  destruct (load_after_save _ _ _ _ _ Hrun) as (s2 & Hload).
  destruct artifact_paths_differ as (Hmf & Hmr & Hfr).
  split_and!.
  - reflexivity.
  - now rewrite Hload.
  - rewrite Hfiles. rewrite lookup_insert_ne by congruence. apply lookup_insert_eq.
  - unfold model_info, try_except, bind, lift, ret, raise. rewrite Hload. reflexivity.
Qed.

Lemma main_success_inv {DataFrame : Type}
    (load_features : result (DataFrame * DataFrame * DataFrame))
    prepare_features xgb_fit mae mse r2 float_pow s s' :
  Train.main DataFrame load_features prepare_features xgb_fit mae mse r2 float_pow s
  = (Ok tt, s') ->
  exists train_df val_df test_df X_train y_train X_val y_val X_test y_test
         model results,
    load_features = Ok (train_df, val_df, test_df) /\
    prepare_features train_df val_df test_df =
      Ok (X_train, y_train, X_val, y_val, X_test, y_test) /\
    Train.train_model xgb_fit X_train y_train X_val y_val XGBOOST_PARAMS = Ok model /\
    Train.evaluate_model float mae mse r2 (fun x => float_pow x Train.f_0_5)
      model X_train y_train X_val y_val X_test y_test FEATURE_COLUMNS = Ok results /\
    Train.save_model model FEATURE_COLUMNS (Train.results_json results)
      MODEL_FILE FEATURE_LIST_FILE RESULTS_FILE s = (Ok tt, s').
Proof.
  unfold Train.main, try_except, bind, lift, raise.
  destruct load_features as [[[tr va] te]|e]; [|discriminate].
  destruct (prepare_features tr va te) as [[[[[[X1 y1] X2] y2] X3] y3]|e] eqn:Hp;
    [|discriminate].
  destruct (Train.train_model xgb_fit X1 y1 X2 y2 XGBOOST_PARAMS) as [model|e] eqn:Hf;
    [|discriminate].
  destruct (Train.evaluate_model float mae mse r2 (fun x => float_pow x Train.f_0_5)
              model X1 y1 X2 y2 X3 y3 FEATURE_COLUMNS) as [results|e] eqn:He;
    [|discriminate].
  destruct (Train.save_model model FEATURE_COLUMNS (Train.results_json results)
              MODEL_FILE FEATURE_LIST_FILE RESULTS_FILE s) as [[[]|e] s1] eqn:Hs;
    [|discriminate].
  intros [= <-]. exists tr, va, te, X1, y1, X2, y2, X3, y3, model, results.
  split_and!; auto.
Qed.

(** X13. Training then serving: after a run of [main] that succeeded, a new
    server process loads the model that was just fitted, its health response
    reports as [test_mae] the mean absolute error of that model on the test
    split, and [/info] returns the metadata with n_features 17, the names of
    [FEATURE_COLUMNS], the hyperparameters and the metrics of the run. *)
Theorem train_then_serve {DataFrame : Type}
    (load_features : result (DataFrame * DataFrame * DataFrame))
    prepare_features xgb_fit mae mse r2 float_pow f s s1 :
  (forall x, f (JFloat x) = Ok (Some x)) ->
  Train.main DataFrame load_features prepare_features xgb_fit mae mse r2 float_pow s
  = (Ok tt, s1) ->
  exists train_df val_df test_df X_train y_train X_val y_val X_test y_test
         model results pred a s2,
    load_features = Ok (train_df, val_df, test_df) /\
    prepare_features train_df val_df test_df =
      Ok (X_train, y_train, X_val, y_val, X_test, y_test) /\
    Train.train_model xgb_fit X_train y_train X_val y_val XGBOOST_PARAMS = Ok model /\
    Train.evaluate_model float mae mse r2 (fun x => float_pow x Train.f_0_5)
      model X_train y_train X_val y_val X_test y_test FEATURE_COLUMNS = Ok results /\
    XGBRegressor.predict model X_test = Ok pred /\ mae y_test pred = Ok a /\
    load_model (fresh_process s1) =
      (Ok (Some model,
           results_with_meta FEATURE_COLUMNS (Train.results_json results)), s2) /\
    health_check f (fresh_process s1) =
      (Ok {| status := "healthy"; model_loaded := true; n_features := 17;
             test_mae := Some a |}, s2) /\
    model_info (fresh_process s1) =
      (Ok (JObj [ ("model_type", JStr "XGBoost");
                  ("n_features", JInt 17);
                  ("features", JList (map JStr FEATURE_COLUMNS));
                  ("hyperparameters", XGBOOST_PARAMS);
                  ("metrics", Train.results_json results) ]), s2).
Proof.
  intros Hf Hmain.
  destruct (main_success_inv _ _ _ _ _ _ _ _ _ Hmain)
    as (tr & va & te & X1 & y1 & X2 & y2 & X3 & y3 & model & results &
        Hl & Hp & Hfit & He & Hsave).
  destruct (evaluate_model_inv _ _ _ _ _ _ _ _ _ _ _ _ _ _ He)
    as (p1 & p2 & p3 & a1 & m1 & r1 & a2 & m2 & r2' & a3 & m3 & r3 &
        _ & _ & Hp3 & _ & _ & _ & _ & _ & _ & Ha3 & _ & _ & Hres).
  destruct (load_after_save _ _ _ _ _ Hsave) as (s2 & Hload).
  exists tr, va, te, X1, y1, X2, y2, X3, y3, model, results, p3, a3, s2.
  split_and!; auto.
  - rewrite (health_check_run f _ _ _ _ Hload). rewrite Hres. simpl.
    now rewrite Hf.
  - unfold model_info, try_except, bind, lift, ret, raise. rewrite Hload. reflexivity.
Qed.

Lemma train_then_serve_witness :
  exists s1 h,
    Train.main unit sample_load sample_prepare sample_fit
      sample_metric sample_metric sample_metric sample_pow (boot ∅) = (Ok tt, s1) /\
    fst (health_check optional_float (fresh_process s1)) = Ok h /\
    test_mae h = Some f_0_84.
Proof.
  assert (Hmain :
    Train.main unit sample_load sample_prepare sample_fit
      sample_metric sample_metric sample_metric sample_pow (boot ∅) =
    (Ok tt, snd (Train.main unit sample_load sample_prepare sample_fit
                   sample_metric sample_metric sample_metric sample_pow (boot ∅))))
    by (vm_compute; reflexivity).
  destruct (train_then_serve sample_load sample_prepare sample_fit
              sample_metric sample_metric sample_metric sample_pow optional_float
              _ _ (fun x => eq_refl) Hmain)
    as (tr & va & te & X1 & y1 & X2 & y2 & X3 & y3 & model & results & pred & a & s2 &
        _ & _ & _ & _ & _ & Ha & _ & Hh & _).
  eexists _, _. split; [exact Hmain|]. rewrite Hh. split; [reflexivity|].
  simpl. unfold sample_metric in Ha. congruence.
Defined.



(** X15. [evaluate_model] returns its dict exactly when every library call
    goes through: the three predictions, the nine metrics, the model's
    feature importances, and the importance table, which needs as many
    importances as feature names. *)
Theorem evaluate_model_returns_iff Num mae mse r2 pow_half model
    X_train y_train X_val y_val X_test y_test cols res :
  Train.evaluate_model Num mae mse r2 pow_half model
    X_train y_train X_val y_val X_test y_test cols = Ok res <->
  exists p1 p2 p3 a1 m1 r1 a2 m2 r2' a3 m3 r3 imp,
    XGBRegressor.predict model X_train = Ok p1 /\
    XGBRegressor.predict model X_val = Ok p2 /\
    XGBRegressor.predict model X_test = Ok p3 /\
    mae y_train p1 = Ok a1 /\ mse y_train p1 = Ok m1 /\ r2 y_train p1 = Ok r1 /\
    mae y_val p2 = Ok a2 /\ mse y_val p2 = Ok m2 /\ r2 y_val p2 = Ok r2' /\
    mae y_test p3 = Ok a3 /\ mse y_test p3 = Ok m3 /\ r2 y_test p3 = Ok r3 /\
    XGBRegressor.feature_importances_ model = Ok imp /\ length imp = length cols /\
    res = [ ("train", [("mae", a1); ("rmse", pow_half m1); ("r2", r1)]);
            ("val", [("mae", a2); ("rmse", pow_half m2); ("r2", r2')]);
            ("test", [("mae", a3); ("rmse", pow_half m3); ("r2", r3)]) ].
Proof.
  split.
  - unfold Train.evaluate_model. intros H.
    repeat (apply rbind_ok in H as [? [? H]]).
    injection H as <-.
    match goal with
    | Hrep : Train.importance_report _ ?imp = Ok _ |- _ =>
        unfold Train.importance_report in Hrep;
        destruct (Nat.eqb_spec (length cols) (length imp)) as [Hlen|]; [|discriminate]
    end.
    do 13 eexists. split_and!; try eassumption; [now symmetry | reflexivity].
  - intros (p1 & p2 & p3 & a1 & m1 & r1 & a2 & m2 & r2' & a3 & m3 & r3 & imp &
            H1 & H2 & H3 & H4 & H5 & H6 & H7 & H8 & H9 & H10 & H11 & H12 &
            Himp & Hlen & ->).
    now apply (evaluate_model_returns _ _ _ _ _ _ _ _ _ _ _ _ _
                 p1 p2 p3 a1 m1 r1 a2 m2 r2' a3 m3 r3 imp).
Qed.
